(** * ADA staking dashboard: wallet utilities, staking form and history page

    A shallow embedding of [src/utils/wallet.ts], of the staking form
    (the [Dash] component) and of the history page (the [History]
    component), together with the part of the ECMAScript run time these
    functions rely on: the Number type (IEEE 754 binary64, round to nearest,
    ties to even), the conversions between strings and numbers, and
    [String.prototype.slice]. *)

From Stdlib Require Import ZArith QArith Qpower Qround Qabs List String Ascii Bool Lia Lqa.
From Stdlib Require Import Numbers.DecimalString Numbers.DecimalN Numbers.DecimalPos Numbers.DecimalFacts.
From Stdlib Require Import Floats.SpecFloat.
Import ListNotations.

Local Open Scope Z_scope.

(* ================================================================== *)
(** * The Number type *)
(* ================================================================== *)

(** A Number is NaN, an infinity, a signed zero, or a finite non-zero
    binary64 value [(-1)^neg * m * 2^e].  Values built by [round] are in
    canonical form: [2^52 <= m < 2^53] with [-1074 <= e <= 971], or
    [m < 2^52] with [e = -1074]. *)
Inductive number : Type :=
| NaN
| Infinity (neg : bool)
| Zero (neg : bool)
| Finite (neg : bool) (m : positive) (e : Z).

Definition number_eqb (x y : number) : bool :=
  match x, y with
  | NaN, NaN => true
  | Infinity a, Infinity b => Bool.eqb a b
  | Zero a, Zero b => Bool.eqb a b
  | Finite a m e, Finite b m' e' => Bool.eqb a b && Pos.eqb m m' && Z.eqb e e'
  | _, _ => false
  end.

Definition prec : Z := 53.
Definition emin : Z := -1074.
Definition emax : Z := 971.

(** The mathematical value of a Number (0 for NaN and the infinities, which
    the callers rule out first). *)
Definition Rval (x : number) : Q :=
  match x with
  | Finite neg m e =>
      ((if neg then Z.neg m else Z.pos m) # 1) * (2 # 1) ^ e
  | _ => 0
  end%Q.

Definition isFinite (x : number) : bool :=
  match x with
  | Zero _ | Finite _ _ _ => true
  | _ => false
  end.

Definition isNaN (x : number) : bool :=
  match x with NaN => true | _ => false end.

Definition signbit (x : number) : bool :=
  match x with
  | NaN => false
  | Infinity s | Zero s | Finite s _ _ => s
  end.

Definition neg_number (x : number) : number :=
  match x with
  | NaN => NaN
  | Infinity s => Infinity (negb s)
  | Zero s => Zero (negb s)
  | Finite s m e => Finite (negb s) m e
  end.

(** ** Rounding a non-negative rational [n / d] to the nearest Number *)

(** [floor (log2 (n / d))] for positive [n] and [d]. *)
Definition ilog2 (n d : Z) : Z :=
  let l := Z.log2 n - Z.log2 d in
  if 0 <=? l
  then (if d * 2 ^ l <=? n then l else l - 1)
  else (if d <=? n * 2 ^ (- l) then l else l - 1).

(** [(n / d) / 2^e] as a fraction. *)
Definition scale2 (n d e : Z) : Z * Z :=
  if 0 <=? e then (n, d * 2 ^ e) else (n * 2 ^ (- e), d).

(** Nearest integer to [num / den], ties to even. *)
Definition rne (num den : Z) : Z :=
  let q := num / den in
  let r := num mod den in
  match 2 * r ?= den with
  | Lt => q
  | Gt => q + 1
  | Eq => if Z.even q then q else q + 1
  end.

(** A mantissa [0 <= m <= 2^53] at exponent [e >= emin]: carry, underflow to
    zero, overflow to infinity. *)
Definition mkFinite (neg : bool) (m e : Z) : number :=
  let '(m, e) := if m =? 2 ^ prec then (2 ^ (prec - 1), e + 1) else (m, e) in
  match m with
  | Z.pos p => if emax <? e then Infinity neg else Finite neg p e
  | _ => Zero neg
  end.

Definition round (neg : bool) (n d : Z) : number :=
  if n <=? 0 then Zero neg
  else
    let e := Z.max (ilog2 n d - (prec - 1)) emin in
    let '(num, den) := scale2 n d e in
    mkFinite neg (rne num den) e.

(** An integer as a Number. *)
Definition of_Z (z : Z) : number := round (z <? 0) (Z.abs z) 1.

(** [n * 10^x], rounded. *)
Definition of_decimal (neg : bool) (n x : Z) : number :=
  if 0 <=? x then round neg (n * 10 ^ x) 1 else round neg n (10 ^ (- x)).

(** ** Arithmetic *)

Definition mantissa (x : number) : Z :=
  match x with Finite _ m _ => Z.pos m | _ => 0 end.
Definition exponent (x : number) : Z :=
  match x with Finite _ _ e => e | _ => 0 end.

(** [x * y] *)
Definition mul (x y : number) : number :=
  match x, y with
  | NaN, _ | _, NaN => NaN
  | Infinity _, Zero _ | Zero _, Infinity _ => NaN
  | Infinity s, (Infinity t | Finite t _ _)
  | Finite s _ _, Infinity t => Infinity (xorb s t)
  | Zero s, (Zero t | Finite t _ _) | Finite s _ _, Zero t => Zero (xorb s t)
  | Finite s m e, Finite t m' e' =>
      let '(n, d) := scale2 (Z.pos m * Z.pos m') 1 (- (e + e')) in
      round (xorb s t) n d
  end.

(** [x / y] *)
Definition div (x y : number) : number :=
  match x, y with
  | NaN, _ | _, NaN => NaN
  | Infinity _, Infinity _ | Zero _, Zero _ => NaN
  | Infinity s, (Zero t | Finite t _ _) | Finite s _ _, Zero t => Infinity (xorb s t)
  | (Zero s | Finite s _ _), Infinity t | Zero s, Finite t _ _ => Zero (xorb s t)
  | Finite s m e, Finite t m' e' =>
      let '(n, d) := scale2 (Z.pos m) (Z.pos m') (e' - e) in
      round (xorb s t) n d
  end.

(** ** Comparisons: [x < y], [x <= y], [x >= y] (false when either is NaN) *)

Definition lt (x y : number) : bool :=
  match x, y with
  | NaN, _ | _, NaN => false
  | Infinity false, _ => false
  | Infinity true, Infinity true => false
  | Infinity true, _ => true
  | _, Infinity s => negb s
  | _, _ => negb (Qle_bool (Rval y) (Rval x))
  end.

Definition le (x y : number) : bool :=
  match x, y with
  | NaN, _ | _, NaN => false
  | _, _ => negb (lt y x)
  end.

Definition ge (x y : number) : bool := le y x.
Definition gt (x y : number) : bool := lt y x.

(** [x === y] on Numbers *)
Definition strict_eq (x y : number) : bool :=
  match x, y with
  | NaN, _ | _, NaN => false
  | Infinity s, Infinity t => Bool.eqb s t
  | Infinity _, _ | _, Infinity _ => false
  | _, _ => Qeq_bool (Rval x) (Rval y)
  end.

(** ** Math.floor, Math.ceil, Math.max *)

(** [floor] of the absolute value of a finite non-zero Number, and whether
    the value is an integer. *)
Definition floor_abs (m : positive) (e : Z) : Z :=
  if 0 <=? e then Z.pos m * 2 ^ e else Z.pos m / 2 ^ (- e).

Definition is_integer (m : positive) (e : Z) : bool :=
  if 0 <=? e then true else Z.pos m mod 2 ^ (- e) =? 0.

Definition Math_floor (x : number) : number :=
  match x with
  | Finite false m e => round false (floor_abs m e) 1
  | Finite true m e =>
      round true (if is_integer m e then floor_abs m e else floor_abs m e + 1) 1
  | _ => x
  end.

Definition Math_ceil (x : number) : number :=
  match x with
  | Finite false m e =>
      round false (if is_integer m e then floor_abs m e else floor_abs m e + 1) 1
  | Finite true m e => round true (floor_abs m e) 1
  | _ => x
  end.

Definition Math_max (x y : number) : number :=
  match x, y with
  | NaN, _ | _, NaN => NaN
  | Zero s, Zero t => Zero (s && t)
  | _, _ => if lt x y then y else x
  end.

Definition Math_min (x y : number) : number :=
  match x, y with
  | NaN, _ | _, NaN => NaN
  | Zero s, Zero t => Zero (s || t)
  | _, _ => if lt y x then y else x
  end.

(* ================================================================== *)
(** * Strings and numeric literals *)
(* ================================================================== *)

Local Open Scope string_scope.
Local Open Scope Z_scope.

(** White space and line terminators of [StrWhiteSpaceChar] among the code
    units below 256: TAB, LF, VT, FF, CR, SP and NBSP. *)
Definition isWhiteSpace (c : ascii) : bool :=
  let n := nat_of_ascii c in
  ((9 <=? n) && (n <=? 13) || (n =? 32) || (n =? 160))%nat.

Fixpoint trimStart (s : string) : string :=
  match s with
  | String c r => if isWhiteSpace c then trimStart r else s
  | EmptyString => EmptyString
  end.

Fixpoint trimEnd (s : string) : string :=
  match s with
  | String c r =>
      match trimEnd r with
      | EmptyString => if isWhiteSpace c then EmptyString else String c EmptyString
      | r' => String c r'
      end
  | EmptyString => EmptyString
  end.

Definition trim (s : string) : string := trimEnd (trimStart s).

(** The decimal digit a character stands for, as a constructor of
    [Decimal.uint]. *)
Definition digit_of (c : ascii) : option (Decimal.uint -> Decimal.uint) :=
  match c with
  | "0"%char => Some Decimal.D0
  | "1"%char => Some Decimal.D1
  | "2"%char => Some Decimal.D2
  | "3"%char => Some Decimal.D3
  | "4"%char => Some Decimal.D4
  | "5"%char => Some Decimal.D5
  | "6"%char => Some Decimal.D6
  | "7"%char => Some Decimal.D7
  | "8"%char => Some Decimal.D8
  | "9"%char => Some Decimal.D9
  | _ => None
  end.

(** The longest prefix of decimal digits, and what follows it. *)
Fixpoint takeDigits (s : string) : Decimal.uint * string :=
  match s with
  | String c r =>
      match digit_of c with
      | Some f => let '(d, r') := takeDigits r in (f d, r')
      | None => (Decimal.Nil, s)
      end
  | EmptyString => (Decimal.Nil, EmptyString)
  end.

Definition noDigits (d : Decimal.uint) : bool :=
  match d with Decimal.Nil => true | _ => false end.

Definition uintZ (d : Decimal.uint) : Z := Z.of_N (N.of_uint d).
Definition nbDigits (d : Decimal.uint) : Z := Z.of_nat (Decimal.nb_digits d).

(** The decimal string of a natural number. *)
Definition decimal (n : Z) : string :=
  NilEmpty.string_of_uint (N.to_uint (Z.to_N n)).

(** Digits in a radix up to 36: [0-9], then letters of either case. *)
Definition radixDigit (radix : Z) (c : ascii) : option Z :=
  let n := Z.of_nat (nat_of_ascii c) in
  let v :=
    if (48 <=? n) && (n <=? 57) then n - 48
    else if (97 <=? n) && (n <=? 122) then n - 87
    else if (65 <=? n) && (n <=? 90) then n - 55
    else 99 in
  if v <? radix then Some v else None.

(** The value of a string made of digits of the radix only. *)
Fixpoint radixValue (radix : Z) (acc : Z) (s : string) : option Z :=
  match s with
  | EmptyString => Some acc
  | String c r =>
      match radixDigit radix c with
      | Some v => radixValue radix (acc * radix + v) r
      | None => None
      end
  end.

(** The value of the longest prefix made of digits of the radix; [None]
    when there is no such digit. *)
Fixpoint radixPrefix (radix : Z) (acc : option Z) (s : string) : option Z :=
  match s with
  | EmptyString => acc
  | String c r =>
      match radixDigit radix c with
      | Some v =>
          radixPrefix radix
            (Some (match acc with Some a => a * radix + v | None => v end)) r
      | None => acc
      end
  end.

(** A parsed [StrUnsignedDecimalLiteral]. *)
Inductive literal : Type :=
| LitInfinity
| LitDecimal (int frac : Decimal.uint) (exp : Z).

Definition startsWith (p s : string) : option string :=
  if String.prefix p s
  then Some (substring (String.length p) (String.length s - String.length p) s)
  else None.

(** [ExponentPart]: [e] or [E], an optional sign and at least one digit.
    Without a digit the exponent is not part of the literal. *)
Definition takeExponent (s : string) : Z * string :=
  match s with
  | String c r =>
      if (Ascii.eqb c "e" || Ascii.eqb c "E")%bool then
        let '(sgn, r1) :=
          match r with
          | String "-"%char r' => (-1, r')
          | String "+"%char r' => (1, r')
          | _ => (1, r)
          end in
        let '(x, r2) := takeDigits r1 in
        if noDigits x then (0, s) else (sgn * uintZ x, r2)
      else (0, s)
  | EmptyString => (0, s)
  end.

(** The longest prefix of [s] that is a [StrUnsignedDecimalLiteral]. *)
Definition takeUnsignedLiteral (s : string) : option (literal * string) :=
  match startsWith "Infinity" s with
  | Some r => Some (LitInfinity, r)
  | None =>
      let '(i, r1) := takeDigits s in
      match r1 with
      | String "."%char r2 =>
          let '(f, r3) := takeDigits r2 in
          if noDigits i && noDigits f then None
          else let '(x, r4) := takeExponent r3 in Some (LitDecimal i f x, r4)
      | _ =>
          if noDigits i then None
          else let '(x, r4) := takeExponent r1 in Some (LitDecimal i Decimal.Nil x, r4)
      end
  end.

(** The longest prefix of [s] that is a [StrDecimalLiteral] (a sign and an
    unsigned literal). *)
Definition takeLiteral (s : string) : option (bool * literal * string) :=
  let '(neg, r) :=
    match s with
    | String "-"%char r => (true, r)
    | String "+"%char r => (false, r)
    | _ => (false, s)
    end in
  match takeUnsignedLiteral r with
  | Some (l, r') => Some (neg, l, r')
  | None => None
  end.

(** The Number a literal denotes: its mathematical value, rounded. *)
Definition literalValue (neg : bool) (l : literal) : number :=
  match l with
  | LitInfinity => Infinity neg
  | LitDecimal i f x =>
      of_decimal neg (uintZ i * 10 ^ nbDigits f + uintZ f) (x - nbDigits f)
  end.

(** [parseFloat(string)] *)
Definition parseFloat (s : string) : number :=
  match takeLiteral (trimStart s) with
  | Some (neg, l, _) => literalValue neg l
  | None => NaN
  end.

(** [StringToNumber]: the whole trimmed string is a numeric literal. *)
Definition StringToNumber (s : string) : number :=
  let t := trim s in
  match t with
  | EmptyString => Zero false
  | String "0"%char (String c r) =>
      let radix :=
        if (Ascii.eqb c "x" || Ascii.eqb c "X")%bool then 16
        else if (Ascii.eqb c "o" || Ascii.eqb c "O")%bool then 8
        else if (Ascii.eqb c "b" || Ascii.eqb c "B")%bool then 2
        else 0 in
      if radix =? 0 then
        match takeLiteral t with
        | Some (neg, l, EmptyString) => literalValue neg l
        | _ => NaN
        end
      else
        match r with
        | EmptyString => NaN
        | _ => match radixValue radix 0 r with
               | Some v => of_Z v
               | None => NaN
               end
        end
  | _ =>
      match takeLiteral t with
      | Some (neg, l, EmptyString) => literalValue neg l
      | _ => NaN
      end
  end.

(** A [string | number] argument, and [Number(value)] on it. *)
Inductive StringOrNumber : Type :=
| Str (s : string)
| Num (x : number).

Definition ToNumber (v : StringOrNumber) : number :=
  match v with
  | Str s => StringToNumber s
  | Num x => x
  end.

Inductive integerOrInfinity : Type :=
| MinusInfinity
| Integer (z : Z)
| PlusInfinity.

(** [ToIntegerOrInfinity]: NaN and the zeros give 0, other finite values are
    truncated towards zero. *)
Definition ToIntegerOrInfinity (x : number) : integerOrInfinity :=
  match x with
  | NaN | Zero _ => Integer 0
  | Infinity true => MinusInfinity
  | Infinity false => PlusInfinity
  | Finite s m e => Integer (if s then - floor_abs m e else floor_abs m e)
  end.

(** [parseInt(string, radix)]; [radix] is [None] when the argument is
    omitted.  A radix outside 2..36 (other than 0) gives NaN; a leading [0x]
    is skipped when the radix is 16 or omitted. *)
Definition parseInt (s : string) (radix : option number) : number :=
  let t := trimStart s in
  let '(neg, r) :=
    match t with
    | String "-"%char r => (true, r)
    | String "+"%char r => (false, r)
    | _ => (false, t)
    end in
  let R :=
    match radix with
    | None => 0
    | Some x =>
        match ToIntegerOrInfinity x with
        | Integer z => z mod 2 ^ 32
        | _ => 0
        end
    end in
  if negb (R =? 0) && ((R <? 2) || (36 <? R)) then NaN
  else
    let strip := (R =? 0) || (R =? 16) in
    let R := if R =? 0 then 10 else R in
    let '(R, r) :=
      if strip then
        match r with
        | String "0"%char (String c r') =>
            if (Ascii.eqb c "x" || Ascii.eqb c "X")%bool then (16, r') else (R, r)
        | _ => (R, r)
        end
      else (R, r) in
    match radixPrefix R None r with
    | None => NaN
    | Some v => round neg v 1
    end.

(* ================================================================== *)
(** * Numbers to strings *)
(* ================================================================== *)

Definition zeros (n : Z) : string :=
  string_of_list_ascii (repeat "0"%char (Z.to_nat n)).

Definition strlen (s : string) : Z := Z.of_nat (String.length s).

(** ** Number.prototype.toFixed *)

(** The integer [n] for which [n / 10^f] is closest to [m * 2^e]; the larger
    one when there are two. *)
Definition fixedInteger (m : positive) (e : Z) (f : Z) : Z :=
  if 0 <=? e then Z.pos m * 2 ^ e * 10 ^ f
  else (2 * Z.pos m * 10 ^ f + 2 ^ (- e)) / 2 ^ (- e + 1).

(** The digits of [n] with a decimal point before the last [f] of them. *)
Definition fixedDigits (n f : Z) : string :=
  let m := decimal n in
  if f =? 0 then m
  else
    let m := if strlen m <=? f then zeros (f + 1 - strlen m) ++ m else m in
    let k := strlen m in
    substring 0 (Z.to_nat (k - f)) m ++ "." ++ substring (Z.to_nat (k - f)) (Z.to_nat f) m.

(** ** Number::toString, radix 10 *)

(** [v < 10^n] for [v = vn / vd]. *)
Definition below_pow10 (vn vd n : Z) : bool :=
  if 0 <=? n then vn <? vd * 10 ^ n else vn * 10 ^ (- n) <? vd.

Fixpoint first_above (fuel : nat) (vn vd n : Z) : Z :=
  match fuel with
  | O => n
  | S fuel' => if below_pow10 vn vd n then n else first_above fuel' vn vd (n + 1)
  end.

(** The least [n] with [vn / vd < 10^n]: a positive finite Number is at
    least [5e-324] and below [1.8e308]. *)
Definition decimalExponent (vn vd : Z) : Z := first_above 640 vn vd (-325).

(** [floor (v / 10^x)] for [v = vn / vd]. *)
Definition digitsAt (vn vd x : Z) : Z :=
  if 0 <=? x then vn / (vd * 10 ^ x) else vn * 10 ^ (- x) / vd.

Definition pow10Q (x : Z) : Q := ((10 # 1) ^ x)%Q.

(** The candidates [(n, s)] with [k] digits that denote the Number [x]:
    [10^(k-1) <= s < 10^k] and [s * 10^(n-k)] rounds to [x]. *)
Definition candidates (x : number) (vn vd n0 k : Z) : list (Z * Z) :=
  let at_n n :=
    let s := digitsAt vn vd (n - k) in
    filter (fun ns : Z * Z =>
              let s := snd ns in
              (10 ^ (k - 1) <=? s) && (s <? 10 ^ k)
              && number_eqb (of_decimal false s (n - k)) x)
           [(n, s); (n, s + 1)] in
  at_n n0 ++ at_n (n0 + 1).

(** Among candidates, the one closest to the value; the even one of two
    equally close. *)
Definition closest (v : Q) (k : Z) (cs : list (Z * Z)) : option (Z * Z) :=
  let dist (ns : Z * Z) : Q := Qabs ((snd ns # 1) * pow10Q (fst ns - k) - v) in
  fold_left
    (fun best c =>
       match best with
       | None => Some c
       | Some b =>
           match Qcompare (dist c) (dist b) with
           | Lt => Some c
           | Eq => if Z.even (snd c) then Some c else Some b
           | Gt => Some b
           end
       end)
    cs None.

Fixpoint shortest (fuel : nat) (x : number) (vn vd n0 k : Z) : Z * Z * Z :=
  match fuel with
  | O => (n0, k, digitsAt vn vd (n0 - k))
  | S fuel' =>
      match closest (vn # Z.to_pos vd) k (candidates x vn vd n0 k) with
      | Some (n, s) => (n, k, s)
      | None => shortest fuel' x vn vd n0 (k + 1)
      end
  end.

(** [n], [k] and [s] of Number::toString for a positive finite Number:
    [k] is as small as possible. *)
Definition shortestDigits (m : positive) (e : Z) : Z * Z * Z :=
  let '(vn, vd) := scale2 (Z.pos m) 1 (- e) in
  shortest 17 (Finite false m e) vn vd (decimalExponent vn vd) 1.

Definition exponentSuffix (n : Z) : string :=
  "e" ++ (if 0 <=? n - 1 then "+" else "-") ++ decimal (Z.abs (n - 1)).

Definition formatDigits (n k s : Z) : string :=
  let d := decimal s in
  if (k <=? n) && (n <=? 21) then d ++ zeros (n - k)
  else if (0 <? n) && (n <=? 21) then
    substring 0 (Z.to_nat n) d ++ "." ++ substring (Z.to_nat n) (Z.to_nat (k - n)) d
  else if (-6 <? n) && (n <=? 0) then "0." ++ zeros (- n) ++ d
  else if k =? 1 then d ++ exponentSuffix n
  else substring 0 1 d ++ "." ++ substring 1 (Z.to_nat (k - 1)) d ++ exponentSuffix n.

Definition toString (x : number) : string :=
  match x with
  | NaN => "NaN"
  | Infinity s => if s then "-Infinity" else "Infinity"
  | Zero _ => "0"
  | Finite s m e =>
      let '(n, k, d) := shortestDigits m e in
      (if s then "-" else "") ++ formatDigits n k d
  end.

(** [x.toFixed(f)] for [0 <= f <= 100] *)
Definition toFixed (x : number) (f : Z) : string :=
  match x with
  | Zero _ => fixedDigits 0 f
  | Finite s m e =>
      if le (of_decimal false 1 21) (Finite false m e) then toString x
      else (if s then "-" else "") ++ fixedDigits (fixedInteger m e f) f
  | _ => toString x
  end.

(* ================================================================== *)
(** * String.prototype.slice *)
(* ================================================================== *)

(** An index relative to the end when negative, clamped to [0, len]. *)
Definition clampIndex (len : Z) (i : integerOrInfinity) : Z :=
  match i with
  | MinusInfinity => 0
  | Integer z => if z <? 0 then Z.max (len + z) 0 else Z.min z len
  | PlusInfinity => len
  end.

(** [s.slice(start, end)]; [end] is [None] when the argument is omitted. *)
Definition slice (s : string) (start : number) (end_ : option number) : string :=
  let len := strlen s in
  let from := clampIndex len (ToIntegerOrInfinity start) in
  let to :=
    match end_ with
    | None => len
    | Some e => clampIndex len (ToIntegerOrInfinity e)
    end in
  if to <=? from then "" else substring (Z.to_nat from) (Z.to_nat (to - from)) s.

(* ================================================================== *)
(** * src/utils/wallet.ts: the pure helpers *)
(* ================================================================== *)

(** [lovelaceToAda]: [Number(lovelace) / 1000000], with six fraction
    digits. *)
Definition lovelaceToAda (lovelace : StringOrNumber) : string :=
  let adaAmount := div (ToNumber lovelace) (of_Z 1000000) in
  toFixed adaAmount 6.

(** [adaToLovelace]: [Math.floor(Number(ada) * 1000000).toString()] *)
Definition adaToLovelace (ada : StringOrNumber) : string :=
  let lovelaceAmount := mul (ToNumber ada) (of_Z 1000000) in
  toString (Math_floor lovelaceAmount).

(** [getNetworkName] *)
Definition getNetworkName (networkId : number) : string :=
  if strict_eq networkId (of_Z 0) then "Testnet"
  else if strict_eq networkId (of_Z 1) then "Mainnet"
  else "Unknown Network".

(** [formatAddress(address, maxLength)] *)
Definition formatAddress (address : string) (maxLength : number) : string :=
  if le (of_Z (strlen address)) maxLength then address
  else
    slice address (of_Z 0) (Some (div maxLength (of_Z 2)))
    ++ "..."
    ++ slice address (div (neg_number maxLength) (of_Z 2)) None.

(** [formatAddress(address)]: [maxLength] defaults to 16. *)
Definition formatAddress_default (address : string) : string :=
  formatAddress address (of_Z 16).

(** [isValidAdaAmount] *)
Definition isValidAdaAmount (amount : string) : bool :=
  let num := parseFloat amount in
  negb (isNaN num) && gt num (of_Z 0) && le num (of_Z 45000000).

(* ================================================================== *)
(** * Effects: exceptions, component state and calls to the outside *)
(* ================================================================== *)

(** What a [throw] carries: an [Error] object with its message, or any other
    value. *)
Inductive thrown : Type :=
| ErrorObject (message : string)
| OtherValue (description : string).

(** How a function returns, or how a promise settles once awaited. *)
Inductive result (A : Type) : Type :=
| Returned (a : A)
| Threw (t : thrown).
Arguments Returned {A} a.
Arguments Threw {A} t.

(** The calls that leave the page, and the console. *)
Inductive event : Type :=
| GetLovelace
| SignData (payload : string)
| SendLovelace (recipient lovelace : string)
| BuildTx
| SignTx (unsignedTx : string)
| SubmitTx (signedTx : string)
| Fetch (url : string)
| ConsoleLog (label text : string)
| ConsoleError (label : string) (err : thrown).

(** Calls to the wallet extension or to the network (the console is
    neither). *)
Definition isExternalCall (ev : event) : bool :=
  match ev with
  | ConsoleLog _ _ | ConsoleError _ _ => false
  | _ => true
  end.

Definition externalCalls (t : list event) : list event := filter isExternalCall t.

(** A computation over component state [S]: it reads and updates the state,
    appends to the trace of events, and returns or throws. *)
Definition M (S A : Type) : Type := S -> list event -> result A * S * list event.

Section Monad.
Context {S : Type}.

Definition ret {A} (a : A) : M S A := fun s t => (Returned a, s, t).

Definition bind {A B} (m : M S A) (k : A -> M S B) : M S B :=
  fun s t =>
    match m s t with
    | (Returned a, s', t') => k a s' t'
    | (Threw e, s', t') => (Threw e, s', t')
    end.

Definition throw {A} (e : thrown) : M S A := fun s t => (Threw e, s, t).

(** [try { body } catch (err) { handler err }] *)
Definition try_catch {A} (body : M S A) (handler : thrown -> M S A) : M S A :=
  fun s t =>
    match body s t with
    | (Threw e, s', t') => handler e s' t'
    | r => r
    end.

(** [try { body } finally { cleanup }] *)
Definition try_finally {A} (body : M S A) (cleanup : M S unit) : M S A :=
  fun s t =>
    match body s t with
    | (r, s', t') =>
        match cleanup s' t' with
        | (Returned _, s'', t'') => (r, s'', t'')
        | (Threw e, s'', t'') => (Threw e, s'', t'')
        end
    end.

Definition emit (ev : event) : M S unit := fun s t => (Returned tt, s, (t ++ [ev])%list).

(** [await] of a call to the outside: the call is recorded, then its
    promise settles. *)
Definition await {A} (ev : event) (outcome : result A) : M S A :=
  fun s t => (outcome, s, (t ++ [ev])%list).

(** A state setter. *)
Definition set (f : S -> S) : M S unit := fun s t => (Returned tt, f s, t).
End Monad.

Notation "x <- m ;; k" := (bind m (fun x => k))
  (at level 61, m at next level, right associativity).
Notation "m ;; k" := (bind m (fun _ => k))
  (at level 61, right associativity).

(* ================================================================== *)
(** * src/utils/wallet.ts: the wallet calls *)
(* ================================================================== *)

(** The connected wallet, as far as the page uses it: how each of its
    promises settles.  [build] stands for the transaction builder initiated
    with the wallet, given the outputs added to it. *)
Record Wallet : Type := {
  getLovelace : result string;
  signData : string -> result string;
  build : list (string * string) -> result string;
  signTx : string -> result string;
  submitTx : string -> result string
}.

Section WalletCalls.
Context {S : Type}.

(** [getBalance] *)
Definition getBalance (wallet : Wallet) : M S string :=
  try_catch
    (lovelaceBalance <- await GetLovelace (getLovelace wallet) ;;
     let adaBalance :=
       toFixed (div (parseInt lovelaceBalance None) (of_Z 1000000)) 6 in
     ret adaBalance)
    (fun error =>
       emit (ConsoleError "Error fetching balance:" error) ;;
       ret "0").

(** [signMessage] *)
Definition signMessage (wallet : Wallet) (message : string) : M S string :=
  try_catch
    (signature <- await (SignData message) (signData wallet message) ;;
     ret signature)
    (fun error =>
       emit (ConsoleError "Error signing message:" error) ;;
       throw (ErrorObject "Failed to sign message")).

(** [sendFunds] *)
Definition sendFunds (wallet : Wallet) (recipientAddress amountInAda : string)
  : M S string :=
  try_catch
    (let lovelaceAmount :=
       Math_floor (mul (parseFloat amountInAda) (of_Z 1000000)) in
     emit (SendLovelace recipientAddress (toString lovelaceAmount)) ;;
     unsignedTx <-
       await BuildTx (build wallet [(recipientAddress, toString lovelaceAmount)]) ;;
     signedTx <- await (SignTx unsignedTx) (signTx wallet unsignedTx) ;;
     txHash <- await (SubmitTx signedTx) (submitTx wallet signedTx) ;;
     ret txHash)
    (fun error =>
       emit (ConsoleError "Error staking funds:" error) ;;
       throw (ErrorObject "Failed to stake funds")).
End WalletCalls.

(* ================================================================== *)
(** * The staking form (the [Dash] component) *)
(* ================================================================== *)

Record StakePool : Type := {
  pool_id : string;
  pool_ticker : string;
  pool_name : string
}.

Definition PREDEFINED_ADDRESS : string :=
  "addr1qyu5zmg7l5td593d2ks5ae7uctuhzk8h4ex0x5v8mcjjzmvlqrf65ppyqkrm8zpmpl6w0qh9e8wyhwsteqh7ksfamevqe9rqlw".

(** The [useState] cells of the component that the handlers below touch. *)
Record DashState : Type := {
  balance : string;
  isLoadingBalance : bool;
  selectedPool : option StakePool;
  stakeAmount : string;
  dashError : option string;
  success : option string;
  isStaking : bool
}.

Definition setBalance (v : string) : M DashState unit :=
  set (fun s => {| balance := v; isLoadingBalance := isLoadingBalance s;
                   selectedPool := selectedPool s; stakeAmount := stakeAmount s;
                   dashError := dashError s; success := success s;
                   isStaking := isStaking s |}).
Definition setIsLoadingBalance (v : bool) : M DashState unit :=
  set (fun s => {| balance := balance s; isLoadingBalance := v;
                   selectedPool := selectedPool s; stakeAmount := stakeAmount s;
                   dashError := dashError s; success := success s;
                   isStaking := isStaking s |}).
Definition setStakeAmount (v : string) : M DashState unit :=
  set (fun s => {| balance := balance s; isLoadingBalance := isLoadingBalance s;
                   selectedPool := selectedPool s; stakeAmount := v;
                   dashError := dashError s; success := success s;
                   isStaking := isStaking s |}).
Definition setDashError (v : option string) : M DashState unit :=
  set (fun s => {| balance := balance s; isLoadingBalance := isLoadingBalance s;
                   selectedPool := selectedPool s; stakeAmount := stakeAmount s;
                   dashError := v; success := success s;
                   isStaking := isStaking s |}).
Definition setSuccess (v : option string) : M DashState unit :=
  set (fun s => {| balance := balance s; isLoadingBalance := isLoadingBalance s;
                   selectedPool := selectedPool s; stakeAmount := stakeAmount s;
                   dashError := dashError s; success := v;
                   isStaking := isStaking s |}).
Definition setIsStaking (v : bool) : M DashState unit :=
  set (fun s => {| balance := balance s; isLoadingBalance := isLoadingBalance s;
                   selectedPool := selectedPool s; stakeAmount := stakeAmount s;
                   dashError := dashError s; success := success s;
                   isStaking := v |}).

(** [fetchBalance] *)
Definition fetchBalance (wallet : option Wallet) : M DashState unit :=
  match wallet with
  | Some w =>
      setIsLoadingBalance true ;;
      try_finally
        (try_catch
           (walletBalance <- getBalance w ;;
            setBalance walletBalance)
           (fun error =>
              emit (ConsoleError "Error fetching balance:" error) ;;
              setDashError (Some "Failed to fetch balance")))
        (setIsLoadingBalance false)
  | None => ret tt
  end.

(** [handleStake].  [wallet], [selectedPool] and [stakeAmount] are the values
    of the render the handler was created in; the setters act on the current
    state.  The final [fetchBalance()] is not awaited: it cannot throw into
    the handler, and it touches only [balance], [isLoadingBalance] and
    [dashError]. *)
Definition handleStake (wallet : option Wallet) (render : DashState)
  : M DashState unit :=
  match wallet, selectedPool render with
  | Some w, Some pool =>
      setIsStaking true ;;
      setDashError None ;;
      setSuccess None ;;
      try_finally
        (try_catch
           (let stakeAmountNumber := parseFloat (stakeAmount render) in
            (if isNaN stakeAmountNumber || lt stakeAmountNumber (of_Z 5)
             then throw (ErrorObject "Stake amount must be at least 5 ADA")
             else ret tt) ;;
            signMessage w (pool_name pool) ;;
            txHash <- sendFunds w PREDEFINED_ADDRESS (stakeAmount render) ;;
            emit (ConsoleLog "Staking transaction:" txHash) ;;
            setSuccess
              (Some ("Successfully staked " ++ stakeAmount render ++ " ADA to "
                     ++ pool_name pool)) ;;
            setStakeAmount "" ;;
            try_catch (fetchBalance wallet) (fun _ => ret tt))
           (fun err =>
              emit (ConsoleError "Staking error:" err) ;;
              setDashError
                (Some match err with
                      | ErrorObject message => message
                      | OtherValue _ => "An unknown error occurred during staking"
                      end)))
        (setIsStaking false)
  | _, _ => ret tt
  end.

(** Clicking the Stake button: the handler runs on the state of the current
    render. *)
Definition clickStake (wallet : option Wallet) (s : DashState)
  : result unit * DashState * list event :=
  handleStake wallet s s [].

(* ================================================================== *)
(** * The history page (the [History] component) *)
(* ================================================================== *)

Definition BLOCKFROST_API_URL : string := "https://cardano-mainnet.blockfrost.io/api/v0".
Definition ITEMS_PER_PAGE : number := of_Z 10.

Inductive direction : Type := Outgoing | Incoming.

Record TransactionItem : Type := {
  txHash : string;
  block : string;
  time : string;
  amount : string;
  status : direction
}.

Record DelegateHistory : Type := {
  transaction : string;
  epoch : string;
  delegationBlock : string;
  poolId : string
}.

(** ** What the indexer answers *)

(** The body of a response: not JSON at all (then [json()] rejects with the
    engine's SyntaxError, whose message is carried here), JSON that is not an
    array, or a JSON array of items. *)
Inductive body (A : Type) : Type :=
| NotJson (syntaxError : string)
| NotArray
| ArrayOf (items : list A).
Arguments NotJson {A} syntaxError.
Arguments NotArray {A}.
Arguments ArrayOf {A} items.

Record Response (A : Type) : Type := {
  response_status : Z;
  response_statusText : string;
  response_totalCount : option string;   (* the X-Pagination-Total-Count header *)
  response_body : body A
}.
Arguments response_status {A} r.
Arguments response_statusText {A} r.
Arguments response_totalCount {A} r.
Arguments response_body {A} r.

(** [response.ok] *)
Definition response_ok {A} (r : Response A) : bool :=
  (200 <=? response_status r) && (response_status r <=? 299).

(** An entry of the address-transactions listing. *)
Record TxSummary : Type := {
  tx_hash : string;
  block_height : number;
  tx_index : number
}.

(** The transaction details, as far as they are read. *)
Record TxDetails : Type := {
  block_time : number;
  output_amount : list StringOrNumber      (* the [quantity] of each entry *)
}.

(** An entry of the account-delegations listing. *)
Record Delegation : Type := {
  d_tx_hash : string;
  d_active_epoch : number;
  d_block_height : option number;
  d_pool_id : string
}.

(** The indexer and the host: how each request settles, by URL, and the
    locale-dependent rendering of a time stamp. *)
Record Indexer : Type := {
  fetchTxList : string -> result (Response TxSummary);
  fetchTxDetails : string -> result TxDetails;
  fetchDelegations : string -> result (Response Delegation);
  toLocaleString : number -> string
}.

(** ** Component state *)

Record HistoryState : Type := {
  transactions : list TransactionItem;
  isLoading : bool;
  error : option string;
  currentPage : number;
  totalTransactions : number;
  paymentAddress : option string;
  stakeAddress : option string;
  delegateHistory : list DelegateHistory;
  isDelegateHistoryLoading : bool;
  currentEpoch : option number
}.

Definition setTransactions (v : list TransactionItem) : M HistoryState unit :=
  set (fun s => {| transactions := v; isLoading := isLoading s; error := error s;
                   currentPage := currentPage s;
                   totalTransactions := totalTransactions s;
                   paymentAddress := paymentAddress s; stakeAddress := stakeAddress s;
                   delegateHistory := delegateHistory s;
                   isDelegateHistoryLoading := isDelegateHistoryLoading s;
                   currentEpoch := currentEpoch s |}).
Definition setIsLoading (v : bool) : M HistoryState unit :=
  set (fun s => {| transactions := transactions s; isLoading := v; error := error s;
                   currentPage := currentPage s;
                   totalTransactions := totalTransactions s;
                   paymentAddress := paymentAddress s; stakeAddress := stakeAddress s;
                   delegateHistory := delegateHistory s;
                   isDelegateHistoryLoading := isDelegateHistoryLoading s;
                   currentEpoch := currentEpoch s |}).
Definition setError (v : option string) : M HistoryState unit :=
  set (fun s => {| transactions := transactions s; isLoading := isLoading s; error := v;
                   currentPage := currentPage s;
                   totalTransactions := totalTransactions s;
                   paymentAddress := paymentAddress s; stakeAddress := stakeAddress s;
                   delegateHistory := delegateHistory s;
                   isDelegateHistoryLoading := isDelegateHistoryLoading s;
                   currentEpoch := currentEpoch s |}).
Definition setTotalTransactions (v : number) : M HistoryState unit :=
  set (fun s => {| transactions := transactions s; isLoading := isLoading s;
                   error := error s; currentPage := currentPage s;
                   totalTransactions := v;
                   paymentAddress := paymentAddress s; stakeAddress := stakeAddress s;
                   delegateHistory := delegateHistory s;
                   isDelegateHistoryLoading := isDelegateHistoryLoading s;
                   currentEpoch := currentEpoch s |}).
Definition setDelegateHistory (v : list DelegateHistory) : M HistoryState unit :=
  set (fun s => {| transactions := transactions s; isLoading := isLoading s;
                   error := error s; currentPage := currentPage s;
                   totalTransactions := totalTransactions s;
                   paymentAddress := paymentAddress s; stakeAddress := stakeAddress s;
                   delegateHistory := v;
                   isDelegateHistoryLoading := isDelegateHistoryLoading s;
                   currentEpoch := currentEpoch s |}).
Definition setIsDelegateHistoryLoading (v : bool) : M HistoryState unit :=
  set (fun s => {| transactions := transactions s; isLoading := isLoading s;
                   error := error s; currentPage := currentPage s;
                   totalTransactions := totalTransactions s;
                   paymentAddress := paymentAddress s; stakeAddress := stakeAddress s;
                   delegateHistory := delegateHistory s;
                   isDelegateHistoryLoading := v;
                   currentEpoch := currentEpoch s |}).

(** [error instanceof Error ? error.message : 'An unknown error occurred'] *)
Definition messageOf (err : thrown) : string :=
  match err with
  | ErrorObject message => message
  | OtherValue _ => "An unknown error occurred"
  end.

(** [handleError] *)
Definition handleError (message : string) (err : thrown) : M HistoryState unit :=
  emit (ConsoleError message err) ;;
  setError (Some (messageOf err)).

(** The message of [API request failed: ${response.status} ${response.statusText}]. *)
Definition apiRequestFailed {A} (response : Response A) : string :=
  "API request failed: " ++ toString (of_Z (response_status response))
  ++ " " ++ response_statusText response.

Definition transactionsUrl (address : string) (page : number) : string :=
  BLOCKFROST_API_URL ++ "/addresses/" ++ address ++ "/transactions?page="
  ++ toString page ++ "&order=desc&count=" ++ toString ITEMS_PER_PAGE.

Definition txUrl (hash : string) : string := BLOCKFROST_API_URL ++ "/txs/" ++ hash.

Definition delegationsUrl (address : string) : string :=
  BLOCKFROST_API_URL ++ "/accounts/" ++ address ++ "/delegations".

(** One entry of the page, from its summary and its details. *)
Definition formatTransaction (ix : Indexer) (tx : TxSummary) (txDetails : TxDetails)
  : result TransactionItem :=
  match output_amount txDetails with
  | quantity :: _ =>
      Returned
        {| txHash := tx_hash tx;
           block := toString (block_height tx);
           time := toLocaleString ix (mul (block_time txDetails) (of_Z 1000));
           amount := toFixed (div (ToNumber quantity) (of_Z 1000000)) 6;
           status := if strict_eq (tx_index tx) (of_Z 0) then Outgoing else Incoming |}
  | [] => Threw (ErrorObject "Cannot read properties of undefined (reading 'quantity')")
  end.

(** [Promise.all(data.map(async tx => ...))]: every detail request is sent,
    in order; the page is there when all have settled, and the first
    failure, if any, is the failure of the whole. *)
Fixpoint allSettled {A} (rs : list (result A)) : result (list A) :=
  match rs with
  | [] => Returned []
  | Returned a :: rest =>
      match allSettled rest with
      | Returned l => Returned (a :: l)
      | Threw e => Threw e
      end
  | Threw e :: _ => Threw e
  end.

Definition fetchDetails (ix : Indexer) (data : list TxSummary)
  : M HistoryState (list TransactionItem) :=
  fun s t =>
    (allSettled
       (map (fun tx =>
               match fetchTxDetails ix (txUrl (tx_hash tx)) with
               | Returned d => formatTransaction ix tx d
               | Threw e => Threw e
               end) data),
     s,
     (t ++ map (fun tx => Fetch (txUrl (tx_hash tx))) data)%list).

(** [x || '0'] on a header value: [null] and the empty string are falsy. *)
Definition orZero (h : option string) : string :=
  match h with
  | Some (String c r) => String c r
  | _ => "0"
  end.

(** [fetchTransactions].  [paymentAddress] and [currentPage] are the values
    of the render the function was created in. *)
Definition fetchTransactions (ix : Indexer) (render : HistoryState)
  : M HistoryState unit :=
  setIsLoading true ;;
  setError None ;;
  try_finally
    (try_catch
       (match paymentAddress render with
        | None | Some "" => throw (ErrorObject "No payment address found")
        | Some address =>
            let url := transactionsUrl address (currentPage render) in
            response <- await (Fetch url) (fetchTxList ix url) ;;
            if response_status response =? 404 then
              setTransactions [] ;;
              setTotalTransactions (of_Z 0) ;;
              setIsLoading false
            else
              (if negb (response_ok response) then
                 match response_body response with
                 | NotJson syntaxError => throw (ErrorObject syntaxError)
                 | _ =>
                     emit (ConsoleError "Blockfrost API error:"
                             (OtherValue "the parsed response body")) ;;
                     throw (ErrorObject (apiRequestFailed response))
                 end
               else ret tt) ;;
              match response_body response with
              | NotJson syntaxError => throw (ErrorObject syntaxError)
              | NotArray =>
                  emit (ConsoleError "Unexpected API response:"
                          (OtherValue "the parsed response body")) ;;
                  throw (ErrorObject "Unexpected API response format")
              | ArrayOf data =>
                  formattedTransactions <- fetchDetails ix data ;;
                  setTransactions formattedTransactions ;;
                  setTotalTransactions
                    (parseInt (orZero (response_totalCount response)) (Some (of_Z 10)))
              end
        end)
       (fun err => handleError "Error fetching transactions" err))
    (setIsLoading false).

(** [currentEpoch ? ... : ''] : a number is truthy unless it is 0 or NaN. *)
Definition truthy (x : option number) : bool :=
  match x with
  | None | Some NaN | Some (Zero _) => false
  | Some _ => true
  end.

Definition formatDelegation (currentEpoch : option number) (item : Delegation)
  : DelegateHistory :=
  {| transaction := d_tx_hash item;
     epoch :=
       "Epoch " ++ toString (d_active_epoch item)
       ++ (if truthy currentEpoch
           then " (Current: "
                ++ match currentEpoch with Some e => toString e | None => "" end
                ++ ")"
           else "");
     delegationBlock :=
       (if truthy (d_block_height item)
        then match d_block_height item with Some h => toString h | None => "" end
        else "N/A");
     poolId := d_pool_id item |}.

(** [fetchDelegateHistory] *)
Definition fetchDelegateHistory (ix : Indexer) (render : HistoryState)
  : M HistoryState unit :=
  setIsDelegateHistoryLoading true ;;
  setError None ;;
  try_finally
    (try_catch
       (match stakeAddress render with
        | None | Some "" => throw (ErrorObject "No stake address found")
        | Some address =>
            let url := delegationsUrl address in
            response <- await (Fetch url) (fetchDelegations ix url) ;;
            (if negb (response_ok response) then
               emit (ConsoleError "Blockfrost API error:"
                       (OtherValue (toString (of_Z (response_status response))))) ;;
               throw (ErrorObject (apiRequestFailed response))
             else ret tt) ;;
            match response_body response with
            | NotJson syntaxError => throw (ErrorObject syntaxError)
            | NotArray =>
                emit (ConsoleError "Unexpected API response:"
                        (OtherValue "the parsed response body")) ;;
                throw (ErrorObject "Unexpected API response format")
            | ArrayOf data =>
                setDelegateHistory (map (formatDelegation (currentEpoch render)) data)
            end
        end)
       (fun err =>
          handleError "Error fetching delegate history" err ;;
          setDelegateHistory []))
    (setIsDelegateHistoryLoading false).

(** [totalPages] *)
Definition totalPages (s : HistoryState) : number :=
  Math_max (of_Z 1) (Math_ceil (div (totalTransactions s) ITEMS_PER_PAGE)).

(** ** What the component renders *)

Inductive view : Type :=
| Preloader
| ErrorPanel (message : string)              (* the message and a Retry button *)
| HistoryPage
    (paymentAddressLine : option string)
    (transactionTable : option (list TransactionItem * number))  (* rows, total pages *)
    (stakeAddressLine : option string)
    (delegationTable : option (list DelegateHistory)).

Definition nonEmptyString (s : option string) : option string :=
  match s with
  | Some (String c r) => Some (String c r)
  | _ => None
  end.

Definition renderHistory (s : HistoryState) : view :=
  if isLoading s || isDelegateHistoryLoading s then Preloader
  else
    match nonEmptyString (error s) with
    | Some message => ErrorPanel message
    | None =>
        HistoryPage
          (nonEmptyString (paymentAddress s))
          (match transactions s with
           | [] => None
           | rows => Some (rows, totalPages s)
           end)
          (nonEmptyString (stakeAddress s))
          (match delegateHistory s with
           | [] => None
           | rows => Some rows
           end)
    end.

(* ================================================================== *)
(** * Notions used in the statements *)
(* ================================================================== *)

(** ** The staking submission, by the taxonomy of its outcomes *)

Inductive stakeOutcome : Type :=
| MissingPrecondition            (* no wallet or no selected pool: nothing happens *)
| BelowMinimumAmount
| AttestationFailed
| SubmissionFailed
| Succeeded (txHash : string).

(** The amount string handed to the transaction builder. *)
Definition lovelaceOf (amountInAda : string) : string :=
  toString (Math_floor (mul (parseFloat amountInAda) (of_Z 1000000))).

(** The validation of [handleStake]. *)
Definition belowMinimum (amount : string) : bool :=
  isNaN (parseFloat amount) || lt (parseFloat amount) (of_Z 5).

(** How a submission ends, read off the answers of the wallet. *)
Definition stakeOutcomeOf (wallet : option Wallet) (s : DashState) : stakeOutcome :=
  match wallet, selectedPool s with
  | Some w, Some pool =>
      if belowMinimum (stakeAmount s) then BelowMinimumAmount
      else
        match signData w (pool_name pool) with
        | Threw _ => AttestationFailed
        | Returned _ =>
            match build w [(PREDEFINED_ADDRESS, lovelaceOf (stakeAmount s))] with
            | Threw _ => SubmissionFailed
            | Returned unsignedTx =>
                match signTx w unsignedTx with
                | Threw _ => SubmissionFailed
                | Returned signedTx =>
                    match submitTx w signedTx with
                    | Threw _ => SubmissionFailed
                    | Returned txHash => Succeeded txHash
                    end
                end
            end
        end
  | _, _ => MissingPrecondition
  end.

(** The three components of a finished run. *)
Definition resultOf {S A} (r : result A * S * list event) : result A := fst (fst r).
Definition stateOf {S A} (r : result A * S * list event) : S := snd (fst r).
Definition traceOf {S A} (r : result A * S * list event) : list event := snd r.

(** ** Reading a Number as a mathematical value *)

(** [x] is minus infinity or a finite Number below [q]. *)
Definition valueBelow (x : number) (q : Q) : Prop :=
  x = Infinity true \/ (isFinite x = true /\ (Rval x < q)%Q).


(** ** Sample inputs *)

Definition sampleWallet : Wallet :=
  {| getLovelace := Returned "12000000";
     signData := fun _ => Returned "signature";
     build := fun _ => Returned "unsigned";
     signTx := fun _ => Returned "signed";
     submitTx := fun _ => Returned "txhash" |}.

Definition samplePool : StakePool :=
  {| pool_id := "pool1"; pool_ticker := "POOL1"; pool_name := "Pool One" |}.

Definition sampleDash (amount : string) : DashState :=
  {| balance := "12.000000"; isLoadingBalance := false;
     selectedPool := Some samplePool; stakeAmount := amount;
     dashError := None; success := None; isStaking := false |}.

Definition sampleItem : TransactionItem :=
  {| txHash := "f3a9"; block := "9000000"; time := "1/1/2024, 12:00:00 PM";
     amount := "10.000000"; status := Outgoing |}.

(** A page on which the first page of transactions is shown. *)
Definition sampleHistory : HistoryState :=
  {| transactions := [sampleItem]; isLoading := false; error := None;
     currentPage := of_Z 1; totalTransactions := of_Z 23;
     paymentAddress := Some "addr1payment"; stakeAddress := Some "stake1u9";
     delegateHistory := []; isDelegateHistoryLoading := false;
     currentEpoch := Some (of_Z 450) |}.

(** An indexer that answers every request with the given status and body. *)
Definition answering (code : Z) (text : string) (total : option string)
  (txs : body TxSummary) (ds : body Delegation) : Indexer :=
  {| fetchTxList := fun _ =>
       Returned {| response_status := code; response_statusText := text;
                   response_totalCount := total; response_body := txs |};
     fetchTxDetails := fun _ => Threw (ErrorObject "Failed to fetch");
     fetchDelegations := fun _ =>
       Returned {| response_status := code; response_statusText := text;
                   response_totalCount := None; response_body := ds |};
     toLocaleString := fun _ => "1/1/2024, 12:00:00 PM" |}.

(** The history page with a given total, and on a given page. *)
Definition withTotal (total : number) : HistoryState :=
  {| transactions := [sampleItem]; isLoading := false; error := None;
     currentPage := of_Z 1; totalTransactions := total;
     paymentAddress := Some "addr1payment"; stakeAddress := Some "stake1u9";
     delegateHistory := []; isDelegateHistoryLoading := false;
     currentEpoch := Some (of_Z 450) |}.

Definition onPage (page : number) : HistoryState :=
  {| transactions := [sampleItem]; isLoading := false; error := None;
     currentPage := page; totalTransactions := of_Z 23;
     paymentAddress := Some "addr1payment"; stakeAddress := Some "stake1u9";
     delegateHistory := []; isDelegateHistoryLoading := false;
     currentEpoch := Some (of_Z 450) |}.

(** ** The requests of the history page, by how they end *)

(** The error with which the request for the delegation history fails, if it
    does: no stake address, a rejected request, a response that is not a
    success, or a body that is not a JSON array. *)
Definition delegationFailure (ix : Indexer) (render : HistoryState) : option thrown :=
  match stakeAddress render with
  | None | Some "" => Some (ErrorObject "No stake address found")
  | Some address =>
      match fetchDelegations ix (delegationsUrl address) with
      | Threw e => Some e
      | Returned response =>
          if negb (response_ok response)
          then Some (ErrorObject (apiRequestFailed response))
          else
            match response_body response with
            | NotJson syntaxError => Some (ErrorObject syntaxError)
            | NotArray => Some (ErrorObject "Unexpected API response format")
            | ArrayOf _ => None
            end
      end
  end.

(** Whether the view shows the table of transactions. *)
Definition showsTransactions (v : view) : bool :=
  match v with
  | HistoryPage _ (Some _) _ _ => true
  | _ => false
  end.

(** [haystack.includes(needle)] *)
Definition includes (haystack needle : string) : bool :=
  match String.index 0 needle haystack with
  | Some _ => true
  | None => false
  end.


(** ** Notions used in the proofs about rounding *)

(** [2^k <= n / d < 2^(k+1)], without division. *)
Definition binade (n d k : Z) : Prop :=
  (0 <= k -> d * 2 ^ k <= n < d * 2 ^ (k + 1))
  /\ (k < 0 -> d <= n * 2 ^ (- k) < 2 * d).

(** The canonical mantissa and exponent of a positive integer below 2^53. *)
Definition mantissaOf (n : Z) : Z := n * 2 ^ (52 - Z.log2 n).
Definition exponentOf (n : Z) : Z := Z.log2 n - 52.


(** ** Notions used in the proofs about decimal digits *)





(** ** The arithmetic against the Standard Library's binary64 *)

(** A Number as a [spec_float]. *)
Definition toSpecFloat (x : number) : spec_float :=
  match x with
  | NaN => S754_nan
  | Infinity s => S754_infinity s
  | Zero s => S754_zero s
  | Finite s m e => S754_finite s m e
  end.

Definition specFloat_eqb (a b : spec_float) : bool :=
  match a, b with
  | S754_nan, S754_nan => true
  | S754_infinity s, S754_infinity t => Bool.eqb s t
  | S754_zero s, S754_zero t => Bool.eqb s t
  | S754_finite s m e, S754_finite t m' e' =>
      Bool.eqb s t && Pos.eqb m m' && Z.eqb e e'
  | _, _ => false
  end.

(** Numbers that the functions of this file meet: small integers, amounts
    with fraction digits, the extremes of the format and the special values. *)
Definition sampleNumbers : list number :=
  [of_Z 0; of_Z 1; of_Z 2; of_Z 5; of_Z 10; of_Z 23; of_Z 1000000; of_Z (-7);
   of_decimal false 249 (-6); of_decimal false 4999999 (-6);
   of_decimal false 1 21; of_decimal false 5 (-324);
   of_decimal false 17976931348623157 292; of_Z 62590427700605584;
   Infinity false; Infinity true; NaN; Zero true].

(** [mul], [div], [lt] and [le] give what [SFmul], [SFdiv], [SFltb] and
    [SFleb] of the Standard Library give at precision 53 and maximal
    exponent 1024. *)
Definition agreesWithBinary64 (x y : number) : bool :=
  specFloat_eqb (SFmul 53 1024 (toSpecFloat x) (toSpecFloat y)) (toSpecFloat (mul x y))
  && specFloat_eqb (SFdiv 53 1024 (toSpecFloat x) (toSpecFloat y)) (toSpecFloat (div x y))
  && Bool.eqb (SFltb (toSpecFloat x) (toSpecFloat y)) (lt x y)
  && Bool.eqb (SFleb (toSpecFloat x) (toSpecFloat y)) (le x y).

(* ================================================================== *)
(** * Properties *)
(* ================================================================== *)

(** Numbers are computed with [vm_compute], never unfolded by [simpl]. *)
Arguments round : simpl never.
Arguments of_Z : simpl never.
Arguments of_decimal : simpl never.
Arguments mul : simpl never.
Arguments div : simpl never.
Arguments lt : simpl never.
Arguments le : simpl never.
Arguments Math_floor : simpl never.
Arguments Math_ceil : simpl never.
Arguments Math_max : simpl never.
Arguments parseFloat : simpl never.
Arguments parseInt : simpl never.
Arguments StringToNumber : simpl never.
Arguments toString : simpl never.
Arguments toFixed : simpl never.
Arguments Rval : simpl never.
Arguments transactionsUrl : simpl never.
Arguments delegationsUrl : simpl never.
Arguments apiRequestFailed : simpl never.

(** ** The Number model on samples *)

(** On the sample Numbers, pairwise, the arithmetic and the comparisons of
    this file agree with the Standard Library's specification of binary64. *)
Lemma arithmetic_agrees_with_binary64 :
  forallb (fun x => forallb (agreesWithBinary64 x) sampleNumbers) sampleNumbers = true.
Proof. vm_compute. reflexivity. Qed.

(** Strings to Numbers and back, on examples. *)
Example parseFloat_examples :
  parseFloat "4.999999" = of_decimal false 4999999 (-6)
  /\ parseFloat "  10abc" = of_Z 10
  /\ parseFloat "-.5e1x" = of_Z (-5)
  /\ parseFloat "abc" = NaN
  /\ parseFloat "" = NaN
  /\ parseFloat "Infinity" = Infinity false
  /\ StringToNumber "10abc" = NaN
  /\ StringToNumber "" = Zero false
  /\ StringToNumber " 0x1F " = of_Z 31
  /\ StringToNumber "1e3" = of_Z 1000.
Proof. repeat split; vm_compute; reflexivity. Qed.

Example toString_examples :
  toString (of_Z 5000000) = "5000000"
  /\ toString (of_Z (2 ^ 60)) = "1152921504606847000"
  /\ toString (of_decimal false 1 21) = "1e+21"
  /\ toString (of_decimal false 1 (-7)) = "1e-7"
  /\ toString (div (of_Z 1) (of_Z 3)) = "0.3333333333333333"
  /\ toString (of_decimal true 15 (-1)) = "-1.5"
  /\ toFixed (of_decimal false 1005 (-3)) 2 = "1.00"
  /\ toFixed (of_decimal false 25 (-1)) 0 = "3"
  /\ toFixed (of_decimal true 1 (-7)) 6 = "-0.000000"
  /\ toFixed (of_decimal false 1 21) 6 = "1e+21".
Proof. repeat split; vm_compute; reflexivity. Qed.

(** ** Comparisons of Numbers and of their values *)

Lemma lt_Rval (x y : number) :
  isFinite x = true -> isFinite y = true ->
  (lt x y = true <-> (Rval x < Rval y)%Q).
Proof.
  intros Hx Hy.
  assert (E : lt x y = negb (Qle_bool (Rval y) (Rval x))).
  { destruct x, y; try discriminate; reflexivity. }
  rewrite E, negb_true_iff.
  split; intro H.
  - apply Qnot_le_lt. intro A. apply Qle_bool_iff in A. congruence.
  - destruct (Qle_bool (Rval y) (Rval x)) eqn:B; [|reflexivity].
    apply Qle_bool_iff in B. exfalso. exact (Qlt_not_le _ _ H B).
Qed.

Lemma le_Rval (x y : number) :
  isFinite x = true -> isFinite y = true ->
  (le x y = true <-> (Rval x <= Rval y)%Q).
Proof.
  intros Hx Hy.
  assert (E : le x y = negb (lt y x)).
  { destruct x, y; try discriminate; reflexivity. }
  rewrite E, negb_true_iff.
  split; intro H.
  - apply Qnot_lt_le. intro A. apply (lt_Rval y x Hy Hx) in A. congruence.
  - destruct (lt y x) eqn:B; [|reflexivity].
    apply (lt_Rval y x Hy Hx) in B. exfalso. exact (Qlt_not_le _ _ B H).
Qed.

Lemma Rval_5 : (Rval (of_Z 5) == 5)%Q.
Proof. vm_compute. reflexivity. Qed.

(** ** Rounding *)

Lemma pow2_pos (k : Z) : 0 <= k -> 0 < 2 ^ k.
Proof. intros. apply Z.pow_pos_nonneg; lia. Qed.

Lemma pow2_ge_2 (k : Z) : 0 < k -> 2 <= 2 ^ k.
Proof.
  intros. replace k with (1 + (k - 1)) by lia.
  rewrite Z.pow_add_r by lia. pose proof (pow2_pos (k - 1)). lia.
Qed.

Lemma pow2_split (a b : Z) : 0 <= a -> 0 <= b -> 2 ^ (a + b) = 2 ^ a * 2 ^ b.
Proof. intros. apply Z.pow_add_r; assumption. Qed.

Lemma ilog2_binade (n d : Z) : 0 < n -> 0 < d -> binade n d (ilog2 n d).
Proof.
  intros Hn Hd. unfold ilog2, binade.
  pose proof (Z.log2_spec n Hn) as [An Bn].
  pose proof (Z.log2_spec d Hd) as [Ad Bd].
  pose proof (Z.log2_nonneg n). pose proof (Z.log2_nonneg d).
  set (a := Z.log2 n) in *. set (b := Z.log2 d) in *.
  replace (Z.succ a) with (a + 1) in Bn by lia.
  replace (Z.succ b) with (b + 1) in Bd by lia.
  rewrite pow2_split in Bn, Bd by lia. change (2 ^ 1) with 2 in *.
  pose proof (pow2_pos a). pose proof (pow2_pos b).
  destruct (Z.leb_spec 0 (a - b)) as [L|L].
  - assert (E : 2 ^ a = 2 ^ b * 2 ^ (a - b)).
    { rewrite <- pow2_split by lia. f_equal. lia. }
    pose proof (pow2_pos (a - b) L).
    destruct (Z.leb_spec (d * 2 ^ (a - b)) n) as [T|T].
    + split; [intros _|lia]. rewrite pow2_split by lia. change (2 ^ 1) with 2. nia.
    + split.
      * intros K.
        replace (a - b - 1 + 1) with (a - b) by lia.
        assert (E2 : 2 ^ (a - b) = 2 ^ (a - b - 1) * 2).
        { replace (a - b) with ((a - b - 1) + 1) at 1 by lia.
          rewrite pow2_split by lia. reflexivity. }
        pose proof (pow2_pos (a - b - 1) K). nia.
      * intros K. assert (a - b = 0) as Z0 by lia. rewrite Z0 in *.
        replace (- (0 - 1)) with 1 by lia. change (2 ^ 1) with 2.
        change (2 ^ 0) with 1 in *. nia.
  - assert (E : 2 ^ b = 2 ^ a * 2 ^ (- (a - b))).
    { rewrite <- pow2_split by lia. f_equal. lia. }
    pose proof (pow2_pos (- (a - b))).
    destruct (Z.leb_spec d (n * 2 ^ (- (a - b)))) as [T|T].
    + split; [lia|intros _]. nia.
    + split; [lia|intros _].
      replace (- (a - b - 1)) with (- (a - b) + 1) by lia.
      rewrite pow2_split by lia. change (2 ^ 1) with 2. nia.
Qed.

Lemma binade_unique (n d k1 k2 : Z) :
  0 < n -> 0 < d -> binade n d k1 -> binade n d k2 -> k1 = k2.
Proof.
  assert (W : forall k1 k2, 0 < n -> 0 < d -> binade n d k1 -> binade n d k2 ->
                            k1 < k2 -> False).
  { clear k1 k2. intros k1 k2 Hn Hd [P1 N1] [P2 N2] L.
    destruct (Z_lt_le_dec k1 0) as [S1|S1]; destruct (Z_lt_le_dec k2 0) as [S2|S2].
    - specialize (N1 S1). specialize (N2 S2).
      assert (E : 2 ^ (- k1) = 2 ^ (- k2) * 2 ^ (k2 - k1)).
      { rewrite <- pow2_split by lia. f_equal. lia. }
      pose proof (pow2_ge_2 (k2 - k1)). pose proof (pow2_pos (- k2)). nia.
    - specialize (N1 S1). specialize (P2 S2).
      pose proof (pow2_ge_2 (- k1)). pose proof (pow2_pos k2). nia.
    - lia.
    - specialize (P1 S1). specialize (P2 S2).
      assert (2 ^ (k1 + 1) <= 2 ^ k2) by (apply Z.pow_le_mono_r; lia).
      nia. }
  intros Hn Hd B1 B2.
  destruct (Z.lt_trichotomy k1 k2) as [L|[L|L]]; [|assumption|].
  - exfalso. exact (W k1 k2 Hn Hd B1 B2 L).
  - exfalso. exact (W k2 k1 Hn Hd B2 B1 L).
Qed.

Lemma ilog2_unique (n d k : Z) : 0 < n -> 0 < d -> binade n d k -> ilog2 n d = k.
Proof.
  intros Hn Hd B. exact (binade_unique n d _ _ Hn Hd (ilog2_binade n d Hn Hd) B).
Qed.

Lemma rne_exact (m den : Z) : 0 < den -> rne (m * den) den = m.
Proof.
  intros. unfold rne. rewrite Z.div_mul, Z.mod_mul by lia.
  destruct den; [lia|reflexivity|lia].
Qed.

Lemma rne_scale (c num den : Z) :
  0 < c -> 0 < den -> rne (c * num) (c * den) = rne num den.
Proof.
  intros. unfold rne.
  rewrite Z.div_mul_cancel_l, Zmult_mod_distr_l by lia.
  replace (2 * (c * (num mod den))) with (c * (2 * (num mod den))) by lia.
  rewrite <- Zmult_compare_compat_l by lia. reflexivity.
Qed.

Lemma scale2_scale (c n d e : Z) :
  scale2 (c * n) (c * d) e = (c * fst (scale2 n d e), c * snd (scale2 n d e)).
Proof.
  unfold scale2. destruct (0 <=? e); simpl; f_equal; ring.
Qed.

Lemma binade_scale (c n d k : Z) : 0 < c -> binade (c * n) (c * d) k <-> binade n d k.
Proof.
  intros Hc. unfold binade. split; intros [P N]; split; intros K.
  - specialize (P K). nia.
  - specialize (N K). nia.
  - specialize (P K). nia.
  - specialize (N K). nia.
Qed.

Lemma ilog2_scale (c n d : Z) :
  0 < c -> 0 < n -> 0 < d -> ilog2 (c * n) (c * d) = ilog2 n d.
Proof.
  intros Hc Hn Hd. apply ilog2_unique; try nia.
  apply binade_scale; [assumption|]. apply ilog2_binade; assumption.
Qed.

(** Rounding depends on the ratio only. *)
Lemma round_scale (neg : bool) (c n d : Z) :
  0 < c -> 0 < d -> round neg (c * n) (c * d) = round neg n d.
Proof.
  intros Hc Hd. unfold round.
  destruct (Z.leb_spec n 0) as [L|L].
  - destruct (Z.leb_spec (c * n) 0); [reflexivity|nia].
  - destruct (Z.leb_spec (c * n) 0); [nia|].
    rewrite ilog2_scale by assumption.
    rewrite scale2_scale.
    destruct (scale2 n d _) as [num den] eqn:E. simpl fst. simpl snd.
    rewrite rne_scale; [reflexivity|assumption|].
    unfold scale2 in E. destruct (0 <=? _) eqn:S; inversion E; subst.
    + apply Z.leb_le in S. apply Z.mul_pos_pos; [assumption|apply pow2_pos; assumption].
    + assumption.
Qed.

Lemma round_ratio (neg : bool) (n d n' d' : Z) :
  0 < d -> 0 < d' -> n * d' = n' * d -> round neg n d = round neg n' d'.
Proof.
  intros Hd Hd' E.
  rewrite <- (round_scale neg d' n d) by assumption.
  rewrite <- (round_scale neg d n' d') by assumption.
  f_equal; lia.
Qed.

(** A mantissa of 53 bits at an exponent in range is its own rounding. *)
Lemma round_dyadic (neg : bool) (M E : Z) :
  2 ^ 52 <= M < 2 ^ 53 -> emin <= E <= emax ->
  round neg (fst (scale2 M 1 (- E))) (snd (scale2 M 1 (- E)))
  = Finite neg (Z.to_pos M) E.
Proof.
  intros HM HE. unfold emin, emax in HE.
  assert (Hfin : mkFinite neg M E = Finite neg (Z.to_pos M) E).
  { unfold mkFinite, prec.
    destruct (Z.eqb_spec M (2 ^ 53)) as [A|A]; [lia|].
    destruct M as [|p|p]; try lia.
    unfold emax. destruct (Z.ltb_spec 971 E); [lia|reflexivity]. }
  unfold scale2.
  destruct (Z.leb_spec 0 (- E)) as [S|S]; cbn [fst snd].
  - (* E <= 0 *)
    replace (- - E) with E by lia.
    set (D := 1 * 2 ^ (- E)).
    assert (HD : D = 2 ^ (- E)) by (unfold D; lia).
    pose proof (pow2_pos (- E) S) as PD.
    assert (L : ilog2 M D = 52 + E).
    { apply ilog2_unique; try lia. split; intros K.
      - assert (X : 2 ^ (- E) * 2 ^ (52 + E) = 2 ^ 52).
        { rewrite <- pow2_split by lia. f_equal. lia. }
        assert (Y : 2 ^ (52 + E + 1) = 2 ^ (52 + E) * 2).
        { rewrite (pow2_split (52 + E) 1) by lia. reflexivity. }
        pose proof (pow2_pos (52 + E) K). rewrite Y, HD. nia.
      - assert (X : 2 ^ (- E) = 2 ^ 52 * 2 ^ (- (52 + E))).
        { rewrite <- pow2_split by lia. f_equal. lia. }
        pose proof (pow2_pos (- (52 + E))). rewrite HD. nia. }
    unfold round. destruct (Z.leb_spec M 0); [lia|].
    rewrite L. unfold prec, emin.
    replace (Z.max (52 + E - (53 - 1)) (-1074)) with E by lia.
    unfold scale2. destruct (Z.leb_spec 0 E) as [T|T].
    + assert (E = 0) by lia. subst E. change (2 ^ 0) with 1.
      change (- 0) with 0 in *. change (2 ^ 0) with 1 in HD. rewrite HD.
      replace M with (M * (1 * 1)) at 1 by lia. rewrite rne_exact by lia. exact Hfin.
    + rewrite HD. rewrite rne_exact by lia. exact Hfin.
  - (* 0 < E *)
    replace (- - E) with E by lia.
    assert (PE : 0 < 2 ^ E) by (apply pow2_pos; lia).
    assert (L : ilog2 (M * 2 ^ E) 1 = 52 + E).
    { apply ilog2_unique; try nia. split; intros K; [|lia].
      replace (52 + E + 1) with (53 + E) by lia.
      rewrite !pow2_split by lia. nia. }
    unfold round. destruct (Z.leb_spec (M * 2 ^ E) 0); [nia|].
    rewrite L. unfold prec, emin.
    replace (Z.max (52 + E - (53 - 1)) (-1074)) with E by lia.
    unfold scale2. destruct (Z.leb_spec 0 E) as [T|T]; [|lia].
    replace (1 * 2 ^ E) with (2 ^ E) by lia.
    rewrite rne_exact by lia. exact Hfin.
Qed.

(** A ratio that equals a dyadic of 53 bits rounds to it. *)
Lemma round_rep (neg : bool) (n d M E : Z) :
  0 < d -> 2 ^ 52 <= M < 2 ^ 53 -> emin <= E <= emax ->
  n * snd (scale2 M 1 (- E)) = fst (scale2 M 1 (- E)) * d ->
  round neg n d = Finite neg (Z.to_pos M) E.
Proof.
  intros Hd HM HE Heq.
  rewrite <- (round_dyadic neg M E HM HE).
  apply round_ratio; [assumption| |assumption].
  unfold scale2. destruct (Z.leb_spec 0 (- E)) as [S|S]; cbn [snd]; [|lia].
  pose proof (pow2_pos (- E) S). lia.
Qed.

Lemma mantissaOf_range (n : Z) :
  0 < n < 2 ^ 53 -> 2 ^ 52 <= mantissaOf n < 2 ^ 53 /\ -52 <= exponentOf n <= 0.
Proof.
  intros Hn. unfold mantissaOf, exponentOf.
  pose proof (Z.log2_spec n (proj1 Hn)) as [A B].
  pose proof (Z.log2_nonneg n).
  assert (Z.log2 n < 53) by (apply Z.log2_lt_pow2; lia).
  set (l := Z.log2 n) in *.
  replace (Z.succ l) with (l + 1) in B by lia.
  assert (X : 2 ^ l * 2 ^ (52 - l) = 2 ^ 52).
  { rewrite <- pow2_split by lia. f_equal. lia. }
  assert (Y : 2 ^ (l + 1) * 2 ^ (52 - l) = 2 ^ 53).
  { rewrite <- pow2_split by lia. f_equal. lia. }
  pose proof (pow2_pos (52 - l)). nia.
Qed.

Lemma of_Z_exact (n : Z) :
  0 < n < 2 ^ 53 ->
  of_Z n = Finite false (Z.to_pos (mantissaOf n)) (exponentOf n).
Proof.
  intros Hn. destruct (mantissaOf_range n Hn) as [HM HE].
  unfold of_Z. rewrite Z.abs_eq by lia.
  destruct (Z.ltb_spec n 0); [lia|].
  apply round_rep; try lia; [unfold emin, emax; lia|].
  unfold scale2. destruct (Z.leb_spec 0 (- exponentOf n)); [|lia].
  cbn [fst snd]. unfold mantissaOf, exponentOf.
  replace (- (Z.log2 n - 52)) with (52 - Z.log2 n) by lia. lia.
Qed.

Lemma Rval_of_Z (n : Z) : 0 <= n < 2 ^ 53 -> (Rval (of_Z n) == inject_Z n)%Q.
Proof.
  intros Hn. destruct (Z.eq_dec n 0) as [->|N0]; [vm_compute; reflexivity|].
  assert (Hn' : 0 < n < 2 ^ 53) by lia.
  rewrite (of_Z_exact n Hn'). destruct (mantissaOf_range n Hn') as [HM HE].
  unfold Rval. rewrite Z2Pos.id by lia.
  unfold mantissaOf, exponentOf in *.
  set (l := Z.log2 n) in *.
  change (n * 2 ^ (52 - l) # 1)%Q with (inject_Z (n * 2 ^ (52 - l))).
  rewrite inject_Z_mult, Zpower_Qpower by lia.
  change (inject_Z 2) with (2 # 1)%Q.
  rewrite <- Qmult_assoc, <- Qpower_plus by discriminate.
  replace (52 - l + (l - 52)) with 0 by lia.
  change ((2 # 1) ^ 0)%Q with 1%Q. ring.
Qed.

Lemma isFinite_of_Z (n : Z) : 0 <= n < 2 ^ 53 -> isFinite (of_Z n) = true.
Proof.
  intros Hn. destruct (Z.eq_dec n 0) as [->|N0]; [reflexivity|].
  rewrite of_Z_exact by lia. reflexivity.
Qed.

Lemma lt_of_Z (a b : Z) :
  0 <= a < 2 ^ 53 -> 0 <= b < 2 ^ 53 -> lt (of_Z a) (of_Z b) = (a <? b).
Proof.
  intros Ha Hb.
  pose proof (lt_Rval (of_Z a) (of_Z b) (isFinite_of_Z a Ha) (isFinite_of_Z b Hb)) as H.
  rewrite (Rval_of_Z a Ha), (Rval_of_Z b Hb), <- Zlt_Qlt in H.
  destruct (Z.ltb_spec a b) as [L|L].
  - apply H. exact L.
  - destruct (lt (of_Z a) (of_Z b)); [|reflexivity].
    assert (a < b) by (apply H; reflexivity). lia.
Qed.

Lemma le_of_Z (a b : Z) :
  0 <= a < 2 ^ 53 -> 0 <= b < 2 ^ 53 -> le (of_Z a) (of_Z b) = (a <=? b).
Proof.
  intros Ha Hb.
  pose proof (le_Rval (of_Z a) (of_Z b) (isFinite_of_Z a Ha) (isFinite_of_Z b Hb)) as H.
  rewrite (Rval_of_Z a Ha), (Rval_of_Z b Hb), <- Zle_Qle in H.
  destruct (Z.leb_spec a b) as [L|L].
  - apply H. exact L.
  - destruct (le (of_Z a) (of_Z b)); [|reflexivity].
    assert (a <= b) by (apply H; reflexivity). lia.
Qed.


(** The quotient of two integers below 2^53 is the rounding of the exact
    quotient. *)
Lemma div_of_Z (a b : Z) :
  0 < a < 2 ^ 53 -> 0 < b < 2 ^ 53 -> div (of_Z a) (of_Z b) = round false a b.
Proof.
  intros Ha Hb.
  rewrite (of_Z_exact a Ha), (of_Z_exact b Hb).
  destruct (mantissaOf_range a Ha) as [HMa HEa].
  destruct (mantissaOf_range b Hb) as [HMb HEb].
  unfold div. rewrite !Z2Pos.id by lia. cbn [xorb].
  unfold scale2, mantissaOf, exponentOf in *.
  set (la := Z.log2 a) in *. set (lb := Z.log2 b) in *.
  assert (Pa : 0 < 2 ^ (52 - la)) by (apply pow2_pos; lia).
  assert (Pb : 0 < 2 ^ (52 - lb)) by (apply pow2_pos; lia).
  destruct (Z.leb_spec 0 (lb - 52 - (la - 52))) as [S|S].
  - assert (P : 0 < 2 ^ (lb - 52 - (la - 52))) by (apply pow2_pos; lia).
    apply round_ratio; try nia.
    assert (X : 2 ^ (52 - la) = 2 ^ (52 - lb) * 2 ^ (lb - 52 - (la - 52))).
    { rewrite <- pow2_split by lia. f_equal. lia. }
    rewrite X. ring.
  - assert (P : 0 < 2 ^ (- (lb - 52 - (la - 52)))) by (apply pow2_pos; lia).
    apply round_ratio; try nia.
    assert (X : 2 ^ (52 - lb) = 2 ^ (52 - la) * 2 ^ (- (lb - 52 - (la - 52)))).
    { rewrite <- pow2_split by lia. f_equal. lia. }
    rewrite X. ring.
Qed.

(** An integer below 2^53 is its own floor and ceiling. *)
Lemma integer_of_Z (n : Z) :
  0 < n < 2 ^ 53 ->
  is_integer (Z.to_pos (mantissaOf n)) (exponentOf n) = true
  /\ floor_abs (Z.to_pos (mantissaOf n)) (exponentOf n) = n.
Proof.
  intros Hn. destruct (mantissaOf_range n Hn) as [HM HE].
  unfold is_integer, floor_abs. rewrite Z2Pos.id by lia.
  unfold mantissaOf, exponentOf in *. set (l := Z.log2 n) in *.
  destruct (Z.leb_spec 0 (l - 52)) as [S|S].
  - assert (l = 52) by lia. replace (52 - l) with 0 by lia.
    replace (l - 52) with 0 by lia. change (2 ^ 0) with 1. split; [reflexivity|lia].
  - replace (- (l - 52)) with (52 - l) by lia.
    assert (P : 0 < 2 ^ (52 - l)) by (apply pow2_pos; lia).
    rewrite Z.mod_mul, Z.div_mul by lia. split; reflexivity.
Qed.


Lemma Math_ceil_of_Z (n : Z) : 0 <= n < 2 ^ 53 -> Math_ceil (of_Z n) = of_Z n.
Proof.
  intros Hn. destruct (Z.eq_dec n 0) as [->|N0]; [reflexivity|].
  assert (Hn' : 0 < n < 2 ^ 53) by lia.
  rewrite (of_Z_exact n Hn'). unfold Math_ceil.
  destruct (integer_of_Z n Hn') as [I F]. rewrite I, F.
  rewrite <- (of_Z_exact n Hn'). unfold of_Z.
  rewrite Z.abs_eq by lia. destruct (Z.ltb_spec n 0); [lia|reflexivity].
Qed.

(** The nearest integer is within one half. *)
Lemma rne_error (num den : Z) :
  0 < den ->
  2 * (rne num den * den - num) <= den /\ 2 * (num - rne num den * den) <= den.
Proof.
  intros Hd. unfold rne.
  pose proof (Z.div_mod num den ltac:(lia)) as E.
  pose proof (Z.mod_pos_bound num den Hd) as B.
  destruct (Z.compare_spec (2 * (num mod den)) den) as [C|C|C].
  - destruct (Z.even (num / den)); nia.
  - nia.
  - nia.
Qed.

Lemma strictly_between (m K q : Z) :
  0 < K -> q * K < m < (q + 1) * K -> m / K = q /\ m mod K <> 0.
Proof.
  intros HK H.
  pose proof (Z.div_mod m K ltac:(lia)) as E.
  pose proof (Z.mod_pos_bound m K HK) as B.
  assert (m / K = q) by nia. split; [assumption|]. nia.
Qed.

(** [Math.ceil(n / 10)] for an integer [n] below 2^53 that is not a multiple
    of 10. *)
Lemma ceil_div10 (n : Z) :
  0 < n < 2 ^ 53 -> n mod 10 <> 0 ->
  Math_ceil (round false n 10) = of_Z (n / 10 + 1).
Proof.
  intros Hn Hr.
  pose proof (Z.div_mod n 10 ltac:(lia)) as Ediv.
  pose proof (Z.mod_pos_bound n 10 ltac:(lia)) as Bmod.
  set (q := n / 10) in *. set (r := n mod 10) in *.
  assert (Hq : 0 <= q) by (apply Z.div_pos; lia).
  pose proof (ilog2_binade n 10 ltac:(lia) ltac:(lia)) as [BP BN].
  set (k := ilog2 n 10) in *.
  assert (Hk : -4 <= k <= 49).
  { split.
    - destruct (Z_lt_le_dec k (-4)) as [L|L]; [|lia]. exfalso.
      specialize (BN ltac:(lia)).
      assert (2 ^ 5 <= 2 ^ (- k)) by (apply Z.pow_le_mono_r; lia).
      change (2 ^ 5) with 32 in *. nia.
    - destruct (Z_lt_le_dec 49 k) as [L|L]; [|lia]. exfalso.
      specialize (BP ltac:(lia)).
      assert (2 ^ 50 <= 2 ^ k) by (apply Z.pow_le_mono_r; lia).
      lia. }
  unfold round. destruct (Z.leb_spec n 0); [lia|].
  fold k. unfold prec, emin.
  replace (Z.max (k - (53 - 1)) (-1074)) with (k - 52) by lia.
  unfold scale2. destruct (Z.leb_spec 0 (k - 52)); [lia|].
  replace (- (k - 52)) with (52 - k) by lia.
  set (K := 2 ^ (52 - k)).
  assert (HK8 : 8 <= K).
  { unfold K. change 8 with (2 ^ 3). apply Z.pow_le_mono_r; lia. }
  assert (HK2 : K = 2 * 2 ^ (51 - k)).
  { unfold K. replace (52 - k) with (1 + (51 - k)) by lia.
    rewrite pow2_split by lia. reflexivity. }
  assert (HnK : n * K < 10 * 2 ^ 53).
  { destruct (Z_lt_le_dec k 0) as [L|L].
    - specialize (BN L).
      assert (X : K = 2 ^ (- k) * 2 ^ 52).
      { unfold K. rewrite <- pow2_split by lia. f_equal. lia. }
      rewrite X. nia.
    - specialize (BP L).
      assert (X : 2 ^ (k + 1) * K = 2 ^ 53).
      { unfold K. rewrite <- pow2_split by lia. f_equal. lia. }
      nia. }
  destruct (rne_error (n * K) 10 ltac:(lia)) as [E1 E2].
  set (m := rne (n * K) 10) in *.
  assert (Hm : q * K < m < (q + 1) * K) by nia.
  assert (Hm53 : m <= 2 ^ 53) by nia.
  assert (Hres : forall m' e',
             e' < 0 -> 0 < m' -> q * 2 ^ (- e') < m' < (q + 1) * 2 ^ (- e') ->
             Math_ceil (Finite false (Z.to_pos m') e') = of_Z (q + 1)).
  { intros m' e' He' Hm' Hb. unfold Math_ceil, is_integer, floor_abs.
    rewrite Z2Pos.id by lia. destruct (Z.leb_spec 0 e'); [lia|].
    destruct (strictly_between m' (2 ^ (- e')) q (pow2_pos (- e') ltac:(lia)) Hb) as [D R].
    rewrite D. destruct (Z.eqb_spec (m' mod 2 ^ (- e')) 0); [contradiction|].
    unfold of_Z. rewrite Z.abs_eq by lia.
    destruct (Z.ltb_spec (q + 1) 0); [lia|reflexivity]. }
  unfold mkFinite, prec.
  destruct (Z.eqb_spec m (2 ^ 53)) as [C|C].
  - change (2 ^ (53 - 1)) with (Z.pos (Z.to_pos (2 ^ 52))).
    unfold emax. destruct (Z.ltb_spec 971 (k - 52 + 1)); [lia|].
    apply (Hres (2 ^ 52) (k - 52 + 1)); try lia.
    replace (- (k - 52 + 1)) with (51 - k) by lia.
    pose proof (pow2_pos (51 - k)). nia.
  - assert (Hm0 : 0 < m) by nia.
    destruct m as [|p|p] eqn:Em; try lia.
    unfold emax. destruct (Z.ltb_spec 971 (k - 52)); [lia|].
    change p with (Z.to_pos (Z.pos p)).
    apply Hres; try lia.
    replace (- (k - 52)) with (52 - k) by lia. exact Hm.
Qed.

Lemma Math_max_of_Z (a b : Z) :
  0 < a < 2 ^ 53 -> 0 <= b < 2 ^ 53 -> Math_max (of_Z a) (of_Z b) = of_Z (Z.max a b).
Proof.
  intros Ha Hb.
  assert (E : Math_max (of_Z a) (of_Z b) = if lt (of_Z a) (of_Z b) then of_Z b else of_Z a).
  { rewrite (of_Z_exact a Ha).
    destruct (Z.eq_dec b 0) as [->|N0]; [reflexivity|].
    rewrite (of_Z_exact b) by lia. reflexivity. }
  rewrite E, lt_of_Z by lia.
  destruct (Z.ltb_spec a b); f_equal; lia.
Qed.

(** Halving an integer below 2^53 is exact. *)
Lemma half_of_Z (s : bool) (m : Z) :
  0 < m < 2 ^ 53 ->
  div (if s then neg_number (of_Z m) else of_Z m) (of_Z 2)
  = Finite s (Z.to_pos (mantissaOf m)) (exponentOf m - 1).
Proof.
  intros Hm. destruct (mantissaOf_range m Hm) as [HM HE].
  assert (E2 : of_Z 2 = Finite false (Z.to_pos (2 ^ 52)) (-51)) by reflexivity.
  assert (D : div (if s then neg_number (of_Z m) else of_Z m) (of_Z 2)
              = round s (fst (scale2 (mantissaOf m) (2 ^ 52) (-51 - exponentOf m)))
                        (snd (scale2 (mantissaOf m) (2 ^ 52) (-51 - exponentOf m)))).
  { rewrite E2, (of_Z_exact m Hm).
    destruct s; unfold neg_number, div; cbn [xorb negb];
      rewrite !Z2Pos.id by lia;
      destruct (scale2 (mantissaOf m) (2 ^ 52) (-51 - exponentOf m)); reflexivity. }
  rewrite D.
  assert (P1 : 0 < 2 ^ (- (exponentOf m - 1))) by (apply pow2_pos; lia).
  unfold scale2 at 1 2.
  destruct (Z.leb_spec 0 (-51 - exponentOf m)) as [S|S]; cbn [fst snd].
  - assert (P2 : 0 < 2 ^ (-51 - exponentOf m)) by (apply pow2_pos; lia).
    apply round_rep; try nia; [unfold emin, emax; lia|].
    unfold scale2. destruct (Z.leb_spec 0 (- (exponentOf m - 1))); [|lia].
    cbn [fst snd].
    assert (X : 2 ^ 52 * 2 ^ (-51 - exponentOf m) = 2 ^ (- (exponentOf m - 1))).
    { rewrite <- pow2_split by lia. f_equal. lia. }
    nia.
  - assert (P2 : 0 < 2 ^ (- (-51 - exponentOf m))) by (apply pow2_pos; lia).
    apply round_rep; try lia; [unfold emin, emax; lia|].
    unfold scale2. destruct (Z.leb_spec 0 (- (exponentOf m - 1))); [|lia].
    cbn [fst snd].
    assert (X : 2 ^ (- (-51 - exponentOf m)) * 2 ^ (- (exponentOf m - 1)) = 2 ^ 52).
    { rewrite <- pow2_split by lia. f_equal. lia. }
    nia.
Qed.

Lemma trunc_half_of_Z (s : bool) (m : Z) :
  0 <= m < 2 ^ 53 ->
  ToIntegerOrInfinity (div (if s then neg_number (of_Z m) else of_Z m) (of_Z 2))
  = Integer (if s then - (m / 2) else m / 2).
Proof.
  intros Hm. destruct (Z.eq_dec m 0) as [->|N0]; [destruct s; reflexivity|].
  assert (Hm' : 0 < m < 2 ^ 53) by lia.
  rewrite (half_of_Z s m Hm'). destruct (mantissaOf_range m Hm') as [HM HE].
  unfold ToIntegerOrInfinity, floor_abs. rewrite Z2Pos.id by lia.
  destruct (Z.leb_spec 0 (exponentOf m - 1)); [lia|].
  assert (F : mantissaOf m / 2 ^ (- (exponentOf m - 1)) = m / 2).
  { unfold mantissaOf, exponentOf.
    replace (- (Z.log2 m - 52 - 1)) with (1 + (52 - Z.log2 m)) by (unfold exponentOf in *; lia).
    rewrite pow2_split by (unfold exponentOf in *; lia). change (2 ^ 1) with 2.
    apply Z.div_mul_cancel_r; try lia.
    pose proof (pow2_pos (52 - Z.log2 m)). unfold exponentOf in *. lia. }
  rewrite F. reflexivity.
Qed.

(** ** Decimal digits *)











(** ** Reading back the digits *)















(** ** Fixed-point notation of an integer *)

Lemma substring_all (a : string) : substring 0 (String.length a) a = a.
Proof.
  induction a as [|c a IH]; [reflexivity|]. cbn [String.length substring].
  rewrite IH. reflexivity.
Qed.










(** ** The shortest digits of an integer *)















(** ** Validation of an amount *)




(** ** Unit conversion *)

(** C4 (as amended). The conversions are total functions: they return a
    string for every argument.  A string that [Number] does not read as a
    number is converted to "NaN" by both of them, and a string that
    [parseFloat] does not read as a number is not a valid amount. *)
Theorem C4_conversions_total :
  forall s : string,
    (StringToNumber s = NaN ->
     adaToLovelace (Str s) = "NaN" /\ lovelaceToAda (Str s) = "NaN")
    /\ (parseFloat s = NaN -> isValidAdaAmount s = false)
    /\ (exists out, adaToLovelace (Str s) = out)
    /\ (exists out, lovelaceToAda (Str s) = out).
Proof.
  intros s. split; [|split; [|split]].
  - intro H. unfold adaToLovelace, lovelaceToAda, ToNumber. rewrite H.
    split; reflexivity.
  - intro H. unfold isValidAdaAmount. rewrite H. reflexivity.
  - eexists. reflexivity.
  - eexists. reflexivity.
Qed.

(** The claim as stated fails: a non-numeric string is converted to "NaN",
    not to "0". *)
Lemma C4_counterexample :
  StringToNumber "abc" = NaN
  /\ adaToLovelace (Str "abc") = "NaN"
  /\ lovelaceToAda (Str "abc") = "NaN"
  /\ adaToLovelace (Str "abc") <> "0"
  /\ lovelaceToAda (Str "abc") <> "0".
Proof.
  repeat split; try (vm_compute; reflexivity); vm_compute; discriminate.
Qed.




(** ** Address formatting *)

(** An address no longer than the maximum is returned as it is. *)
Lemma formatAddress_short (a : string) (m : Z) :
  strlen a <= m < 2 ^ 53 -> formatAddress a (of_Z m) = a.
Proof.
  intros H. unfold formatAddress.
  rewrite le_of_Z by (unfold strlen in *; lia).
  destruct (Z.leb_spec (strlen a) m); [reflexivity|lia].
Qed.

Lemma formatAddress_long (a : string) (m : Z) :
  2 <= m -> m < strlen a < 2 ^ 53 ->
  formatAddress a (of_Z m)
  = (substring 0 (Z.to_nat (m / 2)) a ++ "..."
     ++ substring (Z.to_nat (strlen a - m / 2)) (Z.to_nat (m / 2)) a)%string.
Proof.
  intros H2 H. unfold formatAddress.
  rewrite le_of_Z by lia.
  destruct (Z.leb_spec (strlen a) m); [lia|].
  assert (Hh : 1 <= m / 2 <= m).
  { pose proof (Z.div_mod m 2 ltac:(lia)). pose proof (Z.mod_pos_bound m 2 ltac:(lia)). lia. }
  unfold slice.
  assert (Hm : 0 <= m < 2 ^ 53) by lia.
  rewrite (trunc_half_of_Z false m Hm
           : ToIntegerOrInfinity (div (of_Z m) (of_Z 2)) = _).
  rewrite (trunc_half_of_Z true m Hm
           : ToIntegerOrInfinity (div (neg_number (of_Z m)) (of_Z 2)) = _).
  change (ToIntegerOrInfinity (of_Z 0)) with (Integer 0).
  unfold clampIndex.
  destruct (Z.ltb_spec 0 0); [lia|].
  destruct (Z.ltb_spec (m / 2) 0); [lia|].
  destruct (Z.ltb_spec (- (m / 2)) 0); [|lia].
  rewrite (Z.min_l 0) by lia. rewrite (Z.min_l (m / 2)) by lia.
  rewrite Z.max_l by lia.
  destruct (Z.leb_spec (m / 2) 0); [lia|].
  destruct (Z.leb_spec (strlen a) (strlen a + - (m / 2))); [lia|].
  replace (m / 2 - 0) with (m / 2) by lia.
  replace (strlen a - (strlen a + - (m / 2))) with (m / 2) by lia.
  replace (strlen a + - (m / 2)) with (strlen a - m / 2) by lia.
  reflexivity.
Qed.

(** C10 (the failing case). With a maximum length of 0 or 1, half of it
    truncates to 0 and [slice(-0)] is the whole string: an address longer
    than the maximum comes back with "..." in front of it and nothing cut,
    not as the bare "..." of zero leading and zero trailing characters. *)
Theorem C10_formatAddress_tiny_maxLength :
  forall (a : string) (m : Z),
    m = 0 \/ m = 1 ->
    m < strlen a < 2 ^ 53 ->
    formatAddress a (of_Z m) = "..." ++ a
    /\ formatAddress a (of_Z m)
       <> substring 0 (Z.to_nat (m / 2)) a ++ "..."
          ++ substring (Z.to_nat (strlen a - m / 2)) (Z.to_nat (m / 2)) a.
Proof.
  intros a m Hm Hlen.
  assert (Hhalf : m / 2 = 0) by (destruct Hm; subst m; reflexivity).
  assert (Hrange : 0 <= m < 2 ^ 53) by lia.
  assert (E : formatAddress a (of_Z m) = "..." ++ a).
  { unfold formatAddress.
    rewrite le_of_Z by lia.
    destruct (Z.leb_spec (strlen a) m); [lia|].
    unfold slice.
    rewrite (trunc_half_of_Z false m Hrange
             : ToIntegerOrInfinity (div (of_Z m) (of_Z 2)) = _).
    rewrite (trunc_half_of_Z true m Hrange
             : ToIntegerOrInfinity (div (neg_number (of_Z m)) (of_Z 2)) = _).
    change (ToIntegerOrInfinity (of_Z 0)) with (Integer 0).
    rewrite Hhalf. cbn [clampIndex Z.opp Z.ltb Z.compare].
    rewrite Z.min_l by lia. cbn [Z.leb Z.compare].
    destruct (Z.leb_spec (strlen a) 0); [lia|].
    rewrite Z.sub_0_r. unfold strlen. rewrite Nat2Z.id.
    change (Z.to_nat 0) with 0%nat. rewrite substring_all. reflexivity. }
  split; [exact E|].
  rewrite E, Hhalf. change (Z.to_nat 0) with 0%nat.
  assert (S0 : forall k s, substring k 0 s = "").
  { induction k as [|k IH]; destruct s; try reflexivity. apply IH. }
  rewrite !S0. cbn [append].
  intro H. apply (f_equal String.length) in H.
  cbn [String.length] in H. unfold strlen in Hlen. lia.
Qed.

Lemma C10_witness :
  formatAddress "abc" (of_Z 1) = "...abc"
  /\ formatAddress "abc" (of_Z 1) <> "...".
Proof.
  exact (C10_formatAddress_tiny_maxLength "abc" 1 (or_intror eq_refl)
           (conj (proj1 (Z.ltb_lt 1 3) eq_refl) (proj1 (Z.ltb_lt 3 (2 ^ 53)) eq_refl))).
Defined.

(** ** The staking submission *)

Ltac run_monad :=
  cbv [bind ret throw try_catch try_finally emit await set
       setBalance setIsLoadingBalance setStakeAmount setDashError setSuccess
       setIsStaking signMessage sendFunds getBalance fetchBalance
       balance isLoadingBalance selectedPool stakeAmount dashError success isStaking
       resultOf stateOf traceOf fst snd].

Ltac case_outcome :=
  match goal with
  | |- context [match ?o with Returned _ => _ | Threw _ => _ end] =>
      let E := fresh "E" in destruct o eqn:E
  end.

(** C9. A run of the staking operation that ends in failure (missing
    precondition, validation, attestation, or build/sign/submit failure)
    leaves the entered stake amount as it was; the amount is reset to the
    empty string exactly when the submission succeeds. *)
Theorem C9_stakeAmount_reset_only_on_success :
  forall (wallet : option Wallet) (s : DashState),
    stakeAmount (stateOf (clickStake wallet s)) =
      match stakeOutcomeOf wallet s with
      | Succeeded _ => ""
      | _ => stakeAmount s
      end.
Proof.
  intros wallet [bal loading [pool|] amount err succ staking];
    destruct wallet as [w|]; try reflexivity.
  unfold clickStake, handleStake, stakeOutcomeOf, belowMinimum, lovelaceOf.
  run_monad.
  destruct (isNaN (parseFloat amount) || lt (parseFloat amount) (of_Z 5));
    [reflexivity|].
  destruct (signData w (pool_name pool)); [|reflexivity].
  destruct (build w _); [|reflexivity].
  destruct (signTx w _); [|reflexivity].
  destruct (submitTx w _); [|reflexivity].
  destruct (getLovelace w); reflexivity.
Qed.

(** The validation of [handleStake] rejects exactly NaN and the Numbers
    below 5. *)
Lemma belowMinimum_spec (amount : string) :
  belowMinimum amount = true <->
  parseFloat amount = NaN \/ valueBelow (parseFloat amount) 5.
Proof.
  unfold belowMinimum, valueBelow.
  destruct (parseFloat amount) as [|[|]|sg|sg m e] eqn:E; cbn [isNaN orb].
  - split; auto.
  - split; auto.
  - split; [discriminate|].
    intros [H|[H|[H _]]]; discriminate.
  - rewrite (lt_Rval (Zero sg) (of_Z 5) eq_refl eq_refl), Rval_5.
    split.
    + intro H. right. right. split; [reflexivity|exact H].
    + intros [H|[H|[_ H]]]; try discriminate. exact H.
  - rewrite (lt_Rval (Finite sg m e) (of_Z 5) eq_refl eq_refl), Rval_5.
    split.
    + intro H. right. right. split; [reflexivity|exact H].
    + intros [H|[H|[_ H]]]; try discriminate. exact H.
Qed.

(** C2. With a wallet and a selected pool, a stake amount that is not numeric
    or that parses to a number strictly below 5 takes the submission straight
    to failure with the below-minimum message: nothing is asked of the wallet
    or of the network, and no message is ever signed. *)
Theorem C2_below_minimum_fails_without_calls :
  forall (w : Wallet) (pool : StakePool) (s : DashState),
    selectedPool s = Some pool ->
    parseFloat (stakeAmount s) = NaN \/ valueBelow (parseFloat (stakeAmount s)) 5 ->
    let run := clickStake (Some w) s in
    resultOf run = Returned tt
    /\ dashError (stateOf run) = Some "Stake amount must be at least 5 ADA"
    /\ success (stateOf run) = None
    /\ isStaking (stateOf run) = false
    /\ stakeOutcomeOf (Some w) s = BelowMinimumAmount
    /\ externalCalls (traceOf run) = []
    /\ (forall payload, ~ In (SignData payload) (traceOf run)).
Proof.
  intros w pool [bal loading sel amount err succ staking] Hpool Hamount.
  simpl in Hpool, Hamount. subst sel.
  apply belowMinimum_spec in Hamount.
  unfold clickStake, handleStake, stakeOutcomeOf.
  cbn [selectedPool stakeAmount]. rewrite Hamount.
  unfold belowMinimum in Hamount.
  run_monad. rewrite Hamount.
  repeat split; try reflexivity.
  intros payload [H|[]]. discriminate.
Qed.

Lemma C2_witness :
  let run := clickStake (Some sampleWallet) (sampleDash "4.999999") in
  resultOf run = Returned tt
  /\ dashError (stateOf run) = Some "Stake amount must be at least 5 ADA"
  /\ success (stateOf run) = None
  /\ isStaking (stateOf run) = false
  /\ stakeOutcomeOf (Some sampleWallet) (sampleDash "4.999999") = BelowMinimumAmount
  /\ externalCalls (traceOf run) = []
  /\ (forall payload, ~ In (SignData payload) (traceOf run)).
Proof.
  apply (C2_below_minimum_fails_without_calls sampleWallet samplePool
           (sampleDash "4.999999")).
  - reflexivity.
  - right. right. split; vm_compute; reflexivity.
Defined.






(** ** The history page *)

Ltac run_history :=
  cbv [bind ret throw try_catch try_finally emit await set handleError
       setTransactions setIsLoading setError setTotalTransactions
       setDelegateHistory setIsDelegateHistoryLoading
       transactions isLoading error currentPage totalTransactions paymentAddress
       stakeAddress delegateHistory isDelegateHistoryLoading currentEpoch
       resultOf stateOf traceOf fst snd].

(** C6 (as amended). When the request for the delegation history fails, the
    delegation list is set to empty and the error message is put in the
    page's one [error] cell; the transactions already in the state are
    untouched.  That cell gates the whole view: once loading is over, a
    non-empty message replaces the page by the error panel, so neither the
    table of transactions nor the delegation section is rendered. *)
Theorem C6_delegation_failure_sets_shared_error :
  forall (ix : Indexer) (render s : HistoryState) (e : thrown),
    delegationFailure ix render = Some e ->
    let run := fetchDelegateHistory ix render s [] in
    resultOf run = Returned tt
    /\ delegateHistory (stateOf run) = []
    /\ error (stateOf run) = Some (messageOf e)
    /\ isDelegateHistoryLoading (stateOf run) = false
    /\ transactions (stateOf run) = transactions s
    /\ totalTransactions (stateOf run) = totalTransactions s
    /\ (isLoading s = false -> messageOf e <> "" ->
        renderHistory (stateOf run) = ErrorPanel (messageOf e)
        /\ showsTransactions (renderHistory (stateOf run)) = false).
Proof.
  intros ix render s e Hfail.
  assert (Hrender : forall s' : HistoryState,
             isLoading s' = false -> isDelegateHistoryLoading s' = false ->
             error s' = Some (messageOf e) -> messageOf e <> "" ->
             renderHistory s' = ErrorPanel (messageOf e)
             /\ showsTransactions (renderHistory s') = false).
  { intros s' H1 H2 H3 H4. unfold renderHistory. rewrite H1, H2, H3. simpl.
    destruct (messageOf e); [congruence|]. split; reflexivity. }
  unfold delegationFailure in Hfail. unfold fetchDelegateHistory.
  destruct (stakeAddress render) as [[|c address]|].
  - injection Hfail as <-. run_history. simpl.
    repeat split; try reflexivity; intros; apply Hrender; auto.
  - run_history.
    destruct (fetchDelegations ix (delegationsUrl (String c address))) as [response|e'].
    + destruct (response_ok response); simpl negb in *; cbv iota in *.
      * destruct (response_body response) as [msg| |items];
          try discriminate; injection Hfail as <-; simpl;
          (repeat split; try reflexivity; intros; apply Hrender; auto).
      * injection Hfail as <-. simpl.
        repeat split; try reflexivity; intros; apply Hrender; auto.
    + injection Hfail as <-. simpl.
      repeat split; try reflexivity; intros; apply Hrender; auto.
  - injection Hfail as <-. run_history. simpl.
    repeat split; try reflexivity; intros; apply Hrender; auto.
Qed.

Lemma C6_witness :
  let ix := answering 500 "Internal Server Error" None (ArrayOf []) NotArray in
  let run := fetchDelegateHistory ix sampleHistory sampleHistory [] in
  resultOf run = Returned tt
  /\ delegateHistory (stateOf run) = []
  /\ error (stateOf run) = Some "API request failed: 500 Internal Server Error"
  /\ isDelegateHistoryLoading (stateOf run) = false
  /\ transactions (stateOf run) = [sampleItem]
  /\ totalTransactions (stateOf run) = of_Z 23
  /\ (isLoading sampleHistory = false ->
      "API request failed: 500 Internal Server Error" <> "" ->
      renderHistory (stateOf run)
        = ErrorPanel "API request failed: 500 Internal Server Error"
      /\ showsTransactions (renderHistory (stateOf run)) = false).
Proof.
  exact (C6_delegation_failure_sets_shared_error
           (answering 500 "Internal Server Error" None (ArrayOf []) NotArray)
           sampleHistory sampleHistory
           (ErrorObject "API request failed: 500 Internal Server Error")
           eq_refl).
Defined.

(** The claim as stated fails: with a page of transactions loaded, a failed
    delegation request leaves the transactions in the state but the view is
    the error panel, and the table of transactions is not rendered (it was
    before the request). *)
Lemma C6_counterexample :
  let ix := answering 500 "Internal Server Error" None (ArrayOf []) NotArray in
  let run := fetchDelegateHistory ix sampleHistory sampleHistory [] in
  delegationFailure ix sampleHistory
    = Some (ErrorObject "API request failed: 500 Internal Server Error")
  /\ showsTransactions (renderHistory sampleHistory) = true
  /\ transactions (stateOf run) = [sampleItem]
  /\ renderHistory (stateOf run)
       = ErrorPanel "API request failed: 500 Internal Server Error"
  /\ showsTransactions (renderHistory (stateOf run)) <> true.
Proof.
  repeat split; try (vm_compute; reflexivity).
  vm_compute. discriminate.
Qed.

(** A "not found" answer is an empty first page, not an error. *)
Lemma fetchTransactions_not_found :
  forall (ix : Indexer) (render s : HistoryState) (c : ascii) (address : string)
         (response : Response TxSummary),
    paymentAddress render = Some (String c address) ->
    fetchTxList ix (transactionsUrl (String c address) (currentPage render))
      = Returned response ->
    response_status response = 404 ->
    let run := fetchTransactions ix render s [] in
    resultOf run = Returned tt
    /\ transactions (stateOf run) = []
    /\ totalTransactions (stateOf run) = of_Z 0
    /\ error (stateOf run) = None
    /\ isLoading (stateOf run) = false
    /\ traceOf run = [Fetch (transactionsUrl (String c address) (currentPage render))].
Proof.
  intros ix [r1 r2 r3 page r5 addr r7 r8 r9 r10] [s1 s2 s3 s4 s5 s6 s7 s8 s9 s10] c address response
         Haddr Hfetch Hstatus.
  simpl in Haddr, Hfetch. subst addr.
  unfold fetchTransactions. run_history.
  rewrite Hfetch, Hstatus. repeat split; reflexivity.
Qed.

(** Any other answer that is not a success, with a JSON body, becomes the
    error message that carries the status code. *)
Lemma fetchTransactions_api_error :
  forall (ix : Indexer) (render s : HistoryState) (c : ascii) (address : string)
         (response : Response TxSummary),
    paymentAddress render = Some (String c address) ->
    fetchTxList ix (transactionsUrl (String c address) (currentPage render))
      = Returned response ->
    response_status response <> 404 ->
    response_ok response = false ->
    (forall syntaxError, response_body response <> NotJson syntaxError) ->
    let run := fetchTransactions ix render s [] in
    resultOf run = Returned tt
    /\ error (stateOf run) = Some (apiRequestFailed response)
    /\ transactions (stateOf run) = transactions s
    /\ totalTransactions (stateOf run) = totalTransactions s
    /\ isLoading (stateOf run) = false.
Proof.
  intros ix [r1 r2 r3 page r5 addr r7 r8 r9 r10] [s1 s2 s3 s4 s5 s6 s7 s8 s9 s10] c address response
         Haddr Hfetch Hstatus Hok Hjson.
  simpl in Haddr, Hfetch. subst addr.
  unfold fetchTransactions. run_history.
  rewrite Hfetch.
  apply Z.eqb_neq in Hstatus. rewrite Hstatus, Hok. cbn [negb].
  destruct (response_body response) as [msg| |items] eqn:B.
  - exfalso. exact (Hjson msg eq_refl).
  - repeat split; reflexivity.
  - repeat split; reflexivity.
Qed.

(** A successful answer with an empty array (a page beyond the last) shows
    no items and reports the total of the header. *)
Lemma fetchTransactions_empty_page :
  forall (ix : Indexer) (render s : HistoryState) (c : ascii) (address : string)
         (response : Response TxSummary),
    paymentAddress render = Some (String c address) ->
    fetchTxList ix (transactionsUrl (String c address) (currentPage render))
      = Returned response ->
    response_ok response = true ->
    response_body response = ArrayOf [] ->
    let run := fetchTransactions ix render s [] in
    resultOf run = Returned tt
    /\ transactions (stateOf run) = []
    /\ totalTransactions (stateOf run)
         = parseInt (orZero (response_totalCount response)) (Some (of_Z 10))
    /\ error (stateOf run) = None
    /\ isLoading (stateOf run) = false.
Proof.
  intros ix [r1 r2 r3 page r5 addr r7 r8 r9 r10] [s1 s2 s3 s4 s5 s6 s7 s8 s9 s10] c address response
         Haddr Hfetch Hok Hbody.
  simpl in Haddr, Hfetch. subst addr.
  unfold fetchTransactions. run_history.
  rewrite Hfetch.
  assert (Hstatus : (response_status response =? 404) = false).
  { unfold response_ok in Hok. apply andb_true_iff in Hok. destruct Hok as [_ H].
    apply Z.leb_le in H. apply Z.eqb_neq. lia. }
  rewrite Hstatus, Hok, Hbody. unfold fetchDetails. cbn [negb map allSettled app].
  repeat split; reflexivity.
Qed.

(** C7 (the failing case). A 502 answer whose body is an HTML page, not JSON:
    reading the body as JSON throws first, so the page shows the parser's
    message, which does not carry the status code, instead of
    "API request failed: 502 Bad Gateway". *)
Theorem C7_non_json_error_body_loses_status :
  let ix := answering 502 "Bad Gateway" None
              (NotJson "Unexpected token < in JSON at position 0") NotArray in
  let run := fetchTransactions ix sampleHistory sampleHistory [] in
  error (stateOf run) = Some "Unexpected token < in JSON at position 0"
  /\ includes "Unexpected token < in JSON at position 0" "502" = false
  /\ error (stateOf run) <> Some "API request failed: 502 Bad Gateway"
  /\ includes "API request failed: 502 Bad Gateway" "502" = true.
Proof.
  repeat split; try (vm_compute; reflexivity).
  vm_compute. discriminate.
Qed.

(** ** The number of pages *)

Lemma Qceiling_tenth (n : Z) :
  Qceiling (n # 10) = if n mod 10 =? 0 then n / 10 else n / 10 + 1.
Proof.
  unfold Qceiling, Qfloor, Qopp. cbn [Qnum Qden].
  pose proof (Z.div_mod n 10 ltac:(lia)).
  pose proof (Z.mod_pos_bound n 10 ltac:(lia)).
  pose proof (Z.div_mod (- n) 10 ltac:(lia)).
  pose proof (Z.mod_pos_bound (- n) 10 ltac:(lia)).
  destruct (Z.eqb_spec (n mod 10) 0); lia.
Qed.

(** C8 (as amended). For every non-negative integer total below 2^53 and the
    page size of 10, the page count is [ceil(total / 10)], at least 1; and a
    successful answer with no items (a page beyond the last) shows an empty
    list while the total of the answer's header is still reported. *)
Theorem C8_total_pages :
  forall (s : HistoryState) (n : Z)
         (ix : Indexer) (render s0 : HistoryState) (c : ascii) (address : string)
         (response : Response TxSummary),
    0 <= n < 2 ^ 53 ->
    totalTransactions s = of_Z n ->
    paymentAddress render = Some (String c address) ->
    fetchTxList ix (transactionsUrl (String c address) (currentPage render))
      = Returned response ->
    response_ok response = true ->
    response_body response = ArrayOf [] ->
    totalPages s = of_Z (Z.max 1 (Qceiling (n # 10)))
    /\ transactions (stateOf (fetchTransactions ix render s0 [])) = []
    /\ totalTransactions (stateOf (fetchTransactions ix render s0 []))
       = parseInt (orZero (response_totalCount response)) (Some (of_Z 10)).
Proof.
  intros s n ix render s0 c address response Hn Htotal Haddr Hfetch Hok Hbody.
  split.
  - unfold totalPages, ITEMS_PER_PAGE. rewrite Htotal, Qceiling_tenth.
    destruct (Z.eq_dec n 0) as [->|N0]; [reflexivity|].
    assert (Hn' : 0 < n < 2 ^ 53) by lia.
    pose proof (Z.div_mod n 10 ltac:(lia)) as Ediv.
    pose proof (Z.mod_pos_bound n 10 ltac:(lia)) as Bmod.
    rewrite div_of_Z by lia.
    destruct (Z.eqb_spec (n mod 10) 0) as [R|R].
    + assert (Hq : 0 < n / 10 < 2 ^ 53) by lia.
      rewrite (round_ratio false n 10 (n / 10) 1) by lia.
      change (round false (n / 10) 1) with (round (0 <? 0) (n / 10) 1).
      replace (round (0 <? 0) (n / 10) 1) with (of_Z (n / 10)).
      2:{ unfold of_Z. rewrite Z.abs_eq by lia.
          destruct (Z.ltb_spec (n / 10) 0); [lia|reflexivity]. }
      rewrite Math_ceil_of_Z, Math_max_of_Z by lia. reflexivity.
    + rewrite ceil_div10 by assumption.
      rewrite Math_max_of_Z by lia. reflexivity.
  - destruct (fetchTransactions_empty_page ix render s0 c address response
                Haddr Hfetch Hok Hbody) as (_ & Ht & Htot & _).
    split; assumption.
Qed.

Lemma C8_witness :
  totalPages sampleHistory = of_Z 3
  /\ transactions
       (stateOf (fetchTransactions
                   (answering 200 "OK" (Some "23") (ArrayOf []) (ArrayOf []))
                   (onPage (of_Z 4)) (onPage (of_Z 4)) [])) = []
  /\ totalTransactions
       (stateOf (fetchTransactions
                   (answering 200 "OK" (Some "23") (ArrayOf []) (ArrayOf []))
                   (onPage (of_Z 4)) (onPage (of_Z 4)) [])) = of_Z 23.
Proof.
  exact (C8_total_pages sampleHistory 23
           (answering 200 "OK" (Some "23") (ArrayOf []) (ArrayOf []))
           (onPage (of_Z 4)) (onPage (of_Z 4)) "a"%char "ddr1payment"
           {| response_status := 200; response_statusText := "OK";
              response_totalCount := Some "23"; response_body := ArrayOf [] |}
           (conj (proj1 (Z.leb_le 0 23) eq_refl) (proj1 (Z.ltb_lt 23 (2 ^ 53)) eq_refl))
           eq_refl eq_refl eq_refl eq_refl eq_refl).
Defined.

(** The claim as stated fails for a total beyond 2^53: 62590427700605584 is a
    Number, a tenth of it is 6259042770060558.4, which is rounded to
    6259042770060558 before [Math.ceil] sees it. *)
Lemma C8_counterexample :
  let s := withTotal (of_Z 62590427700605584) in
  (Rval (totalTransactions s) == 62590427700605584 # 1)%Q
  /\ Qceiling (62590427700605584 # 10) = 6259042770060559
  /\ totalPages s = of_Z 6259042770060558
  /\ totalPages s <> of_Z (Z.max 1 (Qceiling (62590427700605584 # 10))).
Proof.
  repeat split; try (vm_compute; reflexivity).
  vm_compute. discriminate.
Qed.
